(** * generate_post.py: a shallow embedding and its verified properties

    The script asks a language-model backend for an article, formats it,
    posts it as a draft to a WordPress REST endpoint and tries to attach a
    stock image.  Python strings are modelled as lists of Unicode code
    points, network calls as events of a trace answered by an environment,
    and exceptions as an error result. *)

From Stdlib Require Import List NArith ZArith Bool Lia Ascii.
From Stdlib Require Import String.
Import ListNotations.

Local Open Scope N_scope.
Local Open Scope list_scope.

(** ** Python strings *)

(** A [str] is a sequence of code points; a [bytes] object is a sequence of
    octets.  Both are lists of [N]. *)
Definition pystr := list N.
Definition pybytes := list N.

Fixpoint lit (s : String.string) : pystr :=
  match s with
  | String.EmptyString => []
  | String.String c r => N_of_ascii c :: lit r
  end.

Arguments lit s%_string.

Definition pystr_eqb (a b : pystr) : bool :=
  if list_eq_dec N.eq_dec a b then true else false.

(** [startswith p s]: [p] is a prefix of [s]. *)
Fixpoint startswith (p s : pystr) : bool :=
  match p, s with
  | [], _ => true
  | _ :: _, [] => false
  | a :: p', b :: s' => (a =? b) && startswith p' s'
  end.

(** Python's [needle in hay] on strings. *)
Fixpoint contains (needle hay : pystr) : bool :=
  match hay with
  | [] => startswith needle []
  | _ :: t => startswith needle hay || contains needle t
  end.

(** Number of positions of [hay] at which [needle] starts. *)
Fixpoint occurrences (needle hay : pystr) : nat :=
  match hay with
  | [] => if startswith needle [] then 1 else 0
  | _ :: t => ((if startswith needle hay then 1 else 0) + occurrences needle t)%nat
  end.

(** [p] is a suffix of [x]. *)
Definition endswith (p x : pystr) : bool := startswith (rev p) (rev x).

(** [p] and [a] differ at a position both have: then [p] is no prefix of
    any extension of [a]. *)
Fixpoint clash (p a : pystr) : bool :=
  match p, a with
  | x :: p', y :: a' => negb (N.eqb x y) || clash p' a'
  | _, _ => false
  end.

(** The positions at which an occurrence of [n] can be cut in two. *)
Definition junctions (n : pystr) : list nat := seq 1 (List.length n - 1).

(** [str.isspace] on one code point (CPython's [_PyUnicode_IsWhitespace]). *)
Definition is_space (c : N) : bool :=
  ((9 <=? c) && (c <=? 13)) || ((28 <=? c) && (c <=? 32))
  || (c =? 133) || (c =? 160) || (c =? 5760)
  || ((8192 <=? c) && (c <=? 8202))
  || (c =? 8232) || (c =? 8233) || (c =? 8239) || (c =? 8287) || (c =? 12288).

(** Line boundaries of [str.splitlines]. *)
Definition is_linebreak (c : N) : bool :=
  ((10 <=? c) && (c <=? 13)) || ((28 <=? c) && (c <=? 30))
  || (c =? 133) || (c =? 8232) || (c =? 8233).

Fixpoint lstrip (s : pystr) : pystr :=
  match s with
  | [] => []
  | c :: t => if is_space c then lstrip t else s
  end.

Definition rstrip (s : pystr) : pystr := rev (lstrip (rev s)).

Definition strip (s : pystr) : pystr := rstrip (lstrip s).

(** [str.splitlines()]: [acc] holds the current line reversed, [after_cr]
    records that the previous character was a carriage return, so that a
    line feed right after it belongs to the same boundary. *)
Fixpoint splitlines_go (after_cr : bool) (acc s : pystr) : list pystr :=
  match s with
  | [] => match acc with [] => [] | _ => [rev acc] end
  | c :: t =>
      if after_cr && (c =? 10) then splitlines_go false [] t
      else if is_linebreak c then rev acc :: splitlines_go (c =? 13) [] t
      else splitlines_go false (c :: acc) t
  end.

Definition splitlines (s : pystr) : list pystr := splitlines_go false [] s.

(** [str.split(sep)] for a non-empty separator: [skip] counts the characters
    of an already matched separator that are still to be dropped. *)
Fixpoint split_go (sep : pystr) (skip : nat) (acc s : pystr) : list pystr :=
  match s with
  | [] => [rev acc]
  | c :: t =>
      match skip with
      | S k => split_go sep k acc t
      | O => if startswith sep s
             then rev acc :: split_go sep (List.length sep - 1) [] t
             else split_go sep 0 (c :: acc) t
      end
  end.

Definition split (sep s : pystr) : list pystr := split_go sep 0 [] s.

(** [sep.join(parts)]. *)
Fixpoint join (sep : pystr) (parts : list pystr) : pystr :=
  match parts with
  | [] => []
  | [p] => p
  | p :: rest => p ++ sep ++ join sep rest
  end.

(** [str(n)] for an integer. *)
Fixpoint digits_of_uint (u : Decimal.uint) : pystr :=
  match u with
  | Decimal.Nil => []
  | Decimal.D0 r => 48 :: digits_of_uint r
  | Decimal.D1 r => 49 :: digits_of_uint r
  | Decimal.D2 r => 50 :: digits_of_uint r
  | Decimal.D3 r => 51 :: digits_of_uint r
  | Decimal.D4 r => 52 :: digits_of_uint r
  | Decimal.D5 r => 53 :: digits_of_uint r
  | Decimal.D6 r => 54 :: digits_of_uint r
  | Decimal.D7 r => 55 :: digits_of_uint r
  | Decimal.D8 r => 56 :: digits_of_uint r
  | Decimal.D9 r => 57 :: digits_of_uint r
  end.

Definition str_of_int (z : Z) : pystr :=
  match z with
  | Z0 => [48]
  | Zpos p => digits_of_uint (Pos.to_uint p)
  | Zneg p => 45 :: digits_of_uint (Pos.to_uint p)
  end.

Example str_of_int_42 : str_of_int 42 = lit "42".
Proof. reflexivity. Qed.

Example splitlines_crlf :
  splitlines (lit "a" ++ [13; 10] ++ lit "b" ++ [10; 10] ++ lit "c" ++ [10])
  = [lit "a"; lit "b"; []; lit "c"].
Proof. reflexivity. Qed.

Example split_blank :
  split [10; 10] (lit "a" ++ [10; 10; 10] ++ lit "b" ++ [10; 10])
  = [lit "a"; 10 :: lit "b"; []].
Proof. reflexivity. Qed.

Example strip_both : strip (lit "  a b " ++ [9; 160]) = lit "a b".
Proof. reflexivity. Qed.

(** ** Exceptions and results *)

(** Every exception the script can meet derives from Python's [Exception],
    so each of them is caught by [except Exception]. *)
Inductive exn :=
| RequestException (msg : pystr)
| HTTPError (status : N)
| JSONDecodeError
| KeyError (key : pystr)
| IndexError
| TypeError
| AttributeError
| UnicodeEncodeError.

Inductive result (A : Type) :=
| Ok (a : A)
| Raise (e : exn).

Arguments Ok {A} a.
Arguments Raise {A} e.

Definition rbind {A B} (r : result A) (k : A -> result B) : result B :=
  match r with
  | Ok a => k a
  | Raise e => Raise e
  end.

(** ** Bytes: UTF-8, percent-quoting, base64 *)

(** One code point in UTF-8 ([errors='strict']: surrogates are refused). *)
Definition utf8_char (c : N) : option pybytes :=
  if c <? 128 then Some [c]
  else if c <? 2048 then
    Some [N.lor 192 (N.shiftr c 6); N.lor 128 (N.land c 63)]
  else if c <? 65536 then
    if (55296 <=? c) && (c <=? 57343) then None
    else Some [N.lor 224 (N.shiftr c 12);
               N.lor 128 (N.land (N.shiftr c 6) 63);
               N.lor 128 (N.land c 63)]
  else if c <? 1114112 then
    Some [N.lor 240 (N.shiftr c 18);
          N.lor 128 (N.land (N.shiftr c 12) 63);
          N.lor 128 (N.land (N.shiftr c 6) 63);
          N.lor 128 (N.land c 63)]
  else None.

(** [s.encode()]. *)
Fixpoint encode (s : pystr) : result pybytes :=
  match s with
  | [] => Ok []
  | c :: t =>
      match utf8_char c with
      | None => Raise UnicodeEncodeError
      | Some bs => rbind (encode t) (fun r => Ok (bs ++ r))
      end
  end.

Definition is_unreserved (b : N) : bool :=
  ((65 <=? b) && (b <=? 90)) || ((97 <=? b) && (b <=? 122))
  || ((48 <=? b) && (b <=? 57))
  || (b =? 95) || (b =? 46) || (b =? 45) || (b =? 126).

Definition hex_digit (n : N) : N := if n <? 10 then 48 + n else 55 + n.

Definition quote_byte (safe : pybytes) (b : N) : pystr :=
  if is_unreserved b || existsb (N.eqb b) safe then [b]
  else [37; hex_digit (N.shiftr b 4); hex_digit (N.land b 15)].

(** [requests.utils.quote], that is [urllib.parse.quote] with its default
    [safe='/']. *)
Definition quote (s : pystr) : result pystr :=
  rbind (encode s) (fun bs => Ok (flat_map (quote_byte [47]) bs)).

Definition b64_alphabet : pybytes :=
  lit "ABCDEFGHIJKLMNOPQRSTUVWXYZabcdefghijklmnopqrstuvwxyz0123456789+/".

Definition b64_char (n : N) : N := nth (N.to_nat n) b64_alphabet 61.

Fixpoint b64encode (bs : pybytes) : pybytes :=
  match bs with
  | [] => []
  | [a] =>
      [b64_char (N.shiftr a 2); b64_char (N.shiftl (N.land a 3) 4); 61; 61]
  | [a; b] =>
      [b64_char (N.shiftr a 2);
       b64_char (N.lor (N.shiftl (N.land a 3) 4) (N.shiftr b 4));
       b64_char (N.shiftl (N.land b 15) 2); 61]
  | a :: b :: c :: rest =>
      b64_char (N.shiftr a 2)
      :: b64_char (N.lor (N.shiftl (N.land a 3) 4) (N.shiftr b 4))
      :: b64_char (N.lor (N.shiftl (N.land b 15) 2) (N.shiftr c 6))
      :: b64_char (N.land c 63)
      :: b64encode rest
  end.

(** [.decode()] of base64 output, which is ASCII. *)
Definition decode_ascii (b : pybytes) : pystr := b.

Example quote_query : quote (lit "saas dashboard") = Ok (lit "saas%20dashboard").
Proof. reflexivity. Qed.

Example quote_dash : quote [8212; 47; 126] = Ok (lit "%E2%80%94/~").
Proof. reflexivity. Qed.

Example b64_user_pass :
  rbind (encode (lit "user:pass")) (fun b => Ok (b64encode b))
  = Ok (lit "dXNlcjpwYXNz").
Proof. reflexivity. Qed.

Example b64_padding :
  (b64encode (lit "M"), b64encode (lit "Ma"), b64encode (lit "Man"))
  = (lit "TQ==", lit "TWE=", lit "TWFu").
Proof. reflexivity. Qed.

(** ** Python values obtained from JSON *)

(** A float is kept as its [repr], which identifies the double. *)
#[warnings="-register-all"]
Inductive pyval :=
| PNone
| PBool (b : bool)
| PInt (z : Z)
| PFloat (repr : pystr)
| PStr (s : pystr)
| PList (l : list pyval)
| PDict (d : list (pystr * pyval)).

Definition truthy (v : pyval) : bool :=
  match v with
  | PNone => false
  | PBool b => b
  | PInt z => negb (Z.eqb z 0)
  | PFloat r => negb (pystr_eqb r (lit "0.0") || pystr_eqb r (lit "-0.0"))
  | PStr s => match s with [] => false | _ => true end
  | PList l => match l with [] => false | _ => true end
  | PDict d => match d with [] => false | _ => true end
  end.

Fixpoint lookup (k : pystr) (d : list (pystr * pyval)) : option pyval :=
  match d with
  | [] => None
  | (k', v) :: r => if pystr_eqb k k' then Some v else lookup k r
  end.

(** [v[k]] for a string key. *)
Definition getitem (v : pyval) (k : pystr) : result pyval :=
  match v with
  | PDict d => match lookup k d with Some x => Ok x | None => Raise (KeyError k) end
  | _ => Raise TypeError
  end.

(** [v[0]]. *)
Definition getitem0 (v : pyval) : result pyval :=
  match v with
  | PList (x :: _) => Ok x
  | PList [] => Raise IndexError
  | PStr (c :: _) => Ok (PStr [c])
  | PStr [] => Raise IndexError
  | PDict _ => Raise (KeyError (lit "0"))
  | _ => Raise TypeError
  end.

(** [k in v] for a string [k]. *)
Definition py_in (k : pystr) (v : pyval) : result bool :=
  match v with
  | PDict d => Ok (match lookup k d with Some _ => true | None => false end)
  | PStr s => Ok (contains k s)
  | PList l =>
      Ok (existsb (fun x => match x with PStr s => pystr_eqb s k | _ => false end) l)
  | _ => Raise TypeError
  end.

(** [v.get(k)]: only a dict has the method. *)
Definition py_get (v : pyval) (k : pystr) : result pyval :=
  match v with
  | PDict d => Ok (match lookup k d with Some x => x | None => PNone end)
  | _ => Raise AttributeError
  end.

(** ** Requests, events and the environment *)

Inductive http_method := GET | POST.

Inductive payload :=
| NoBody
| JsonBody (v : pyval)
| DataBody (b : pybytes).

Record request := {
  method : http_method;
  url : pystr;
  headers : list (pystr * pystr);
  body : payload;
  timeout : option N
}.

(** What a call of [requests.get] or [requests.post] gives: it raises, or it
    returns a response with a status, its raw content and, when the content
    parses as JSON, the parsed value. *)
Inductive response :=
| Failed (e : exn)
| Http (status : N) (content : pybytes) (json : option pyval).

(** The call sites of the script. *)
Inductive site := OpenAI | HF | WpPost | Unsplash | WpMedia | WpUpdate.

Inductive printed :=
| PS (s : pystr)
| PV (v : pyval)
| PE (e : exn).

(** A run is observed as the sequence of its prints and network calls. *)
Inductive event :=
| Print (args : list printed)
| Call (s : site) (rq : request) (rs : response).

Definition trace := list event.

(** The environment answers a request, knowing all that happened before. *)
Definition network := trace -> site -> request -> response.

(** Computations: they extend the trace and return or raise. *)
Definition io (A : Type) := trace -> result A * trace.

Definition ret {A} (a : A) : io A := fun tr => (Ok a, tr).

Definition throw {A} (e : exn) : io A := fun tr => (Raise e, tr).

Definition bind {A B} (m : io A) (k : A -> io B) : io B :=
  fun tr =>
    match m tr with
    | (Ok a, tr') => k a tr'
    | (Raise e, tr') => (Raise e, tr')
    end.

Definition lift {A} (r : result A) : io A := fun tr => (r, tr).

(** [try: m  except Exception as e: h e]. *)
Definition try_except {A} (m : io A) (h : exn -> io A) : io A :=
  fun tr =>
    match m tr with
    | (Ok a, tr') => (Ok a, tr')
    | (Raise e, tr') => h e tr'
    end.

Definition print (args : list printed) : io unit :=
  fun tr => (Ok tt, tr ++ [Print args]).

Notation "x <- m ;; k" := (bind m (fun x => k))
  (at level 61, m at next level, right associativity).
Notation "m ;; k" := (bind m (fun _ => k))
  (at level 61, right associativity).

Record http_response := {
  status_code : N;
  content : pybytes;
  json_body : option pyval
}.

(** [r.raise_for_status()]. *)
Definition raise_for_status (r : http_response) : result unit :=
  if (400 <=? status_code r) && (status_code r <? 600)
  then Raise (HTTPError (status_code r))
  else Ok tt.

(** [r.json()]. *)
Definition json (r : http_response) : result pyval :=
  match json_body r with
  | Some v => Ok v
  | None => Raise JSONDecodeError
  end.

(** ** Configuration (the environment variables read at import) *)

Record config := {
  WP_URL : option pystr;
  WP_USER : option pystr;
  WP_APP_PASS : option pystr;
  AFF_LINK : pystr;
  OPENAI_KEY : option pystr;
  HF_TOKEN : option pystr;
  PRIMARY_KEYWORD : pystr
}.

(** Truth value of an [os.getenv] result: [None] and [''] are false. *)
Definition is_set (o : option pystr) : bool :=
  match o with
  | Some (_ :: _) => true
  | _ => false
  end.

(** An [os.getenv] result inside an f-string. *)
Definition fmt (o : option pystr) : pystr :=
  match o with
  | Some s => s
  | None => lit "None"
  end.

Definition MARKER : pystr := lit "<!-- AUTO_GENERATED -->".

Definition DASH : pystr := [8212].

(** ** The script *)

Section Script.

(** [str(v)] of a list or a dict (Python's [repr] of containers). *)
Variable repr_container : pyval -> pystr.

Variable cfg : config.
Variable net : network.

Definition py_str (v : pyval) : pystr :=
  match v with
  | PNone => lit "None"
  | PBool true => lit "True"
  | PBool false => lit "False"
  | PInt z => str_of_int z
  | PFloat r => r
  | PStr s => s
  | _ => repr_container v
  end.

(** [requests.get] / [requests.post]: the environment answers and the call
    is recorded. *)
Definition send (s : site) (rq : request) : io http_response :=
  fun tr =>
    let rs := net tr s rq in
    (match rs with
     | Failed e => Raise e
     | Http st c j => Ok {| status_code := st; content := c; json_body := j |}
     end,
     tr ++ [Call s rq rs]).

(** [b64encode(f"{WP_USER}:{WP_APP_PASS}".encode()).decode()] *)
Definition basic_auth : result pystr :=
  rbind (encode (fmt (WP_USER cfg) ++ lit ":" ++ fmt (WP_APP_PASS cfg)))
        (fun b => Ok (decode_ascii (b64encode b))).

Definition fallback_generate (prompt : pystr) : pystr :=
  let title := PRIMARY_KEYWORD cfg ++ lit " " ++ DASH ++ lit " A practical guide" in
  let body :=
    lit "<h2>Introduction</h2><p>This article provides a concise overview for '"
    ++ PRIMARY_KEYWORD cfg ++ lit "'.</p>" in
  let body :=
    body ++ lit "<h2>Top picks</h2><ul><li>Tool A " ++ DASH
    ++ lit " Good for small teams</li><li>Tool B " ++ DASH
    ++ lit " Good for enterprise</li></ul>" in
  let body :=
    body ++ lit "<p>For more details and an affiliate offer, visit "
    ++ AFF_LINK cfg ++ lit "</p>" in
  title ++ [10; 10] ++ body ++ [10; 10] ++ lit "<!-- AUTO_GENERATED -->".

Definition call_openai (prompt : pystr) : io pyval :=
  let url := lit "https://api.openai.com/v1/chat/completions" in
  let headers :=
    [(lit "Authorization", lit "Bearer " ++ fmt (OPENAI_KEY cfg));
     (lit "Content-Type", lit "application/json")] in
  let body :=
    PDict
      [(lit "model",
        PStr (if is_set (OPENAI_KEY cfg) then lit "gpt-4o-mini" else lit "gpt-3.5-turbo"));
       (lit "messages",
        PList [PDict [(lit "role", PStr (lit "system"));
                      (lit "content", PStr (lit "You are an expert B2B SaaS writer."))];
               PDict [(lit "role", PStr (lit "user"));
                      (lit "content", PStr prompt)]]);
       (lit "temperature", PFloat (lit "0.2"));
       (lit "max_tokens", PInt 1600)] in
  r <- send OpenAI {| method := POST; url := url; headers := headers;
                      body := JsonBody body; timeout := Some 120 |} ;;
  lift (raise_for_status r) ;;
  j <- lift (json r) ;;
  lift (rbind (getitem j (lit "choices")) (fun c =>
        rbind (getitem0 c) (fun c0 =>
        rbind (getitem c0 (lit "message")) (fun m =>
        getitem m (lit "content"))))).

Definition call_hf (prompt : pystr) : io pyval :=
  if negb (is_set (HF_TOKEN cfg)) then ret (PStr (fallback_generate prompt))
  else
    let hf_url := lit "https://api-inference.huggingface.co/models/gpt2" in
    let headers := [(lit "Authorization", lit "Bearer " ++ fmt (HF_TOKEN cfg))] in
    r <- send HF {| method := POST; url := hf_url; headers := headers;
                    body := JsonBody
                      (PDict [(lit "inputs", PStr prompt);
                              (lit "parameters",
                               PDict [(lit "max_new_tokens", PInt 800)])]);
                    timeout := None |} ;;
    lift (raise_for_status r) ;;
    out <- lift (json r) ;;
    first_has <-
      lift (match out with
            | PList _ => rbind (getitem0 out) (py_in (lit "generated_text"))
            | _ => Ok false
            end) ;;
    if first_has
    then lift (rbind (getitem0 out) (fun o => getitem o (lit "generated_text")))
    else
      g <- lift (py_get out (lit "generated_text")) ;;
      ret (if truthy g then g else PStr (py_str out)).

(** The prompt [generate_content] builds. *)
Definition generation_prompt : pystr :=
  lit "Write an SEO-friendly article (~900-1400 words) about: '"
  ++ PRIMARY_KEYWORD cfg ++ lit "'. "
  ++ lit "Include: title, short meta description (<=150 chars), H1, H2 sections, 3 FAQs, and a final CTA paragraph with this affiliate link: "
  ++ AFF_LINK cfg
  ++ lit ". Return plain text starting with the title on the first line.".

Definition generate_content : io pyval :=
  let prompt := generation_prompt in
  try_except
    (if is_set (OPENAI_KEY cfg) then call_openai prompt else call_hf prompt)
    (fun e =>
       print [PS (lit "Model call failed:"); PE e] ;;
       print [PS (lit "Using fallback generator.")] ;;
       ret (PStr (fallback_generate prompt))).

Definition post_to_wp (title html_content excerpt : pystr) : io pyval :=
  auth <- lift basic_auth ;;
  let headers :=
    [(lit "Authorization", lit "Basic " ++ auth);
     (lit "Content-Type", lit "application/json")] in
  let payload :=
    PDict [(lit "title", PStr title);
           (lit "content", PStr html_content);
           (lit "excerpt", PStr excerpt);
           (lit "status", PStr (lit "draft"))] in
  r <- send WpPost {| method := POST;
                      url := fmt (WP_URL cfg) ++ lit "/wp-json/wp/v2/posts";
                      headers := headers; body := JsonBody payload;
                      timeout := Some 30 |} ;;
  lift (raise_for_status r) ;;
  lift (json r).

Definition fetch_unsplash_image (query : pystr) : io pybytes :=
  q <- lift (quote query) ;;
  let url := lit "https://source.unsplash.com/1200x630/?" ++ q in
  r <- send Unsplash {| method := GET; url := url; headers := [];
                        body := NoBody; timeout := Some 30 |} ;;
  lift (raise_for_status r) ;;
  ret (content r).

Definition upload_media_to_wp (binary_image : pybytes) (filename : pystr) : io pyval :=
  auth <- lift basic_auth ;;
  let headers :=
    [(lit "Authorization", lit "Basic " ++ auth);
     (lit "Content-Disposition",
      lit "attachment; filename=" ++ [34] ++ filename ++ [34]);
     (lit "Content-Type", lit "image/jpeg")] in
  r <- send WpMedia {| method := POST;
                       url := fmt (WP_URL cfg) ++ lit "/wp-json/wp/v2/media";
                       headers := headers; body := DataBody binary_image;
                       timeout := Some 60 |} ;;
  lift (raise_for_status r) ;;
  lift (json r).

(** *** The formatter (the parsing part of [main]) *)

(** [[l.strip() for l in txt.splitlines() if l.strip()]] *)
Definition stripped_lines (txt : pystr) : list pystr :=
  map strip (filter (fun l => match strip l with [] => false | _ => true end)
                    (splitlines txt)).

Definition title_of (lines : list pystr) : pystr :=
  match lines with
  | l :: _ => l
  | [] => PRIMARY_KEYWORD cfg
  end.

Definition body_of (lines : list pystr) : pystr :=
  if (1 <? List.length lines)%nat then join [10] (tl lines) else [].

(** The wrapping step: plain text gets its blocks wrapped in [<p>]. *)
Definition wrap_paragraphs (body : pystr) : pystr :=
  if negb (contains (lit "<p>") body) && negb (contains (lit "<h") body)
  then
    let paragraphs :=
      map (fun p => lit "<p>" ++ p ++ lit "</p>")
          (filter (fun p => match strip p with [] => false | _ => true end)
                  (split [10; 10] body)) in
    join [10] paragraphs
  else body.

(** The marker-append step. *)
Definition append_marker (body : pystr) : pystr :=
  if negb (contains (lit "<!-- AUTO_GENERATED -->") body)
  then body ++ [10; 10] ++ lit "<!-- AUTO_GENERATED -->"
  else body.

(** The best-effort image step (the body of the inner [try]). *)
Definition attach_image (post_id : pyval) : io unit :=
  img <- fetch_unsplash_image (lit "saas dashboard") ;;
  media <- upload_media_to_wp img (lit "hero.jpg") ;;
  media_id <- lift (py_get media (lit "id")) ;;
  if truthy post_id && truthy media_id then
    auth <- lift basic_auth ;;
    let headers :=
      [(lit "Authorization", lit "Basic " ++ auth);
       (lit "Content-Type", lit "application/json")] in
    upd <- send WpUpdate
             {| method := POST;
                url := fmt (WP_URL cfg) ++ lit "/wp-json/wp/v2/posts/" ++ py_str post_id;
                headers := headers;
                body := JsonBody (PDict [(lit "featured_media", media_id)]);
                timeout := Some 30 |} ;;
    lift (raise_for_status upd) ;;
    print [PS (lit "Featured image set.")]
  else ret tt.

(** The outer [try] of [main]: publish, then attach the image. *)
Definition publish (title body excerpt : pystr) : io unit :=
  try_except
    (res <- post_to_wp title body excerpt ;;
     post_id <- lift (py_get res (lit "id")) ;;
     print [PS (lit "Draft created. Post ID:"); PV post_id] ;;
     try_except
       (attach_image post_id)
       (fun e => print [PS (lit "Image attach failed:"); PE e]))
    (fun e => print [PS (lit "Failed to post:"); PE e]).

(** The formatter: title, body and excerpt from the generated text. *)
Definition format_post (txt : pystr) : pystr * pystr * pystr :=
  let lines := stripped_lines txt in
  let title := title_of lines in
  let body := body_of lines in
  let body := wrap_paragraphs body in
  let excerpt := firstn 140 body in
  let body := append_marker body in
  (title, body, excerpt).

(** [main] from the generated text on. [txt.splitlines()] needs a [str]. *)
Definition format_and_publish (txt : pyval) : io unit :=
  match txt with
  | PStr s => let '(title, body, excerpt) := format_post s in
              publish title body excerpt
  | _ => throw AttributeError
  end.

Definition main : io unit :=
  print [PS (lit "Generating content...")] ;;
  txt <- generate_content ;;
  format_and_publish txt.

End Script.

(** ** Facts about substrings *)

Section Substrings.

Local Open Scope nat_scope.

Lemma startswith_refl (s : pystr) : startswith s s = true.
Proof.
  induction s as [|c s IH]; simpl; [reflexivity|].
  now rewrite N.eqb_refl.
Qed.

Lemma startswith_app (p s : pystr) : startswith p (p ++ s) = true.
Proof.
  induction p as [|c p IH]; simpl; [reflexivity|].
  now rewrite N.eqb_refl.
Qed.

Lemma startswith_app_l (p s t : pystr) :
  startswith p s = true -> startswith p (s ++ t) = true.
Proof.
  revert s; induction p as [|c p IH]; intros [|d s]; simpl; try easy.
  intros H; apply andb_true_iff in H as [-> H]; simpl; auto.
Qed.

Lemma startswith_nil_r (p : pystr) : startswith p [] = true -> p = [].
Proof. destruct p; simpl; congruence. Qed.

(** A prefix of [x ++ y] lies inside [x], or covers [x] and goes on in [y]. *)
Lemma startswith_app_inv (n x y : pystr) :
  startswith n (x ++ y) = true ->
  startswith n x = true
  \/ (List.length x < List.length n
      /\ firstn (List.length x) n = x
      /\ startswith (skipn (List.length x) n) y = true).
Proof.
  revert n; induction x as [|c x IH]; intros n H.
  - destruct n as [|a n]; [now left|].
    right; simpl; repeat split; [lia | exact H].
  - destruct n as [|a n]; [now left|].
    simpl in H; apply andb_true_iff in H as [Hc H].
    destruct (IH n H) as [Hl | (Hlen & Hf & Hs)].
    + left; simpl; now rewrite Hc.
    + right; simpl; apply N.eqb_eq in Hc; subst a.
      repeat split; [lia | now rewrite Hf | exact Hs].
Qed.

Lemma contains_app_r (n a b : pystr) :
  contains n b = true -> contains n (a ++ b) = true.
Proof.
  induction a as [|c a IH]; simpl; [easy|].
  intros H; rewrite (IH H); apply orb_true_r.
Qed.

Lemma contains_prefix (n s : pystr) :
  startswith n s = true -> contains n s = true.
Proof.
  destruct s as [|c s]; simpl; [easy|].
  intros ->; reflexivity.
Qed.

Lemma contains_app_l (n a b : pystr) :
  contains n a = true -> contains n (a ++ b) = true.
Proof.
  induction a as [|c a IH]; simpl.
  - intros H; apply startswith_nil_r in H; subst n.
    destruct b; reflexivity.
  - intros H; apply orb_true_iff in H as [H | H].
    + change (c :: a ++ b) with ((c :: a) ++ b).
      now rewrite (startswith_app_l _ _ b H).
    + rewrite (IH H); apply orb_true_r.
Qed.

Lemma contains_middle (n a b : pystr) : contains n (a ++ n ++ b) = true.
Proof. apply contains_app_r, contains_prefix, startswith_app. Qed.

Lemma contains_occurrences (n h : pystr) :
  contains n h = false <-> occurrences n h = 0.
Proof.
  induction h as [|c h IH]; simpl.
  - destruct (startswith n []); split; congruence.
  - destruct (startswith n (c :: h)); simpl.
    + split; congruence.
    + exact IH.
Qed.

Lemma occurrences_nil (n : pystr) : n <> [] -> occurrences n [] = 0.
Proof. destruct n; simpl; congruence. Qed.

Lemma endswith_cons (p x : pystr) (c : N) :
  endswith p x = true -> endswith p (c :: x) = true.
Proof. unfold endswith; simpl; apply startswith_app_l. Qed.

(** Occurrences add up over a concatenation when no occurrence can
    straddle the junction. *)
Lemma occurrences_app (n x y : pystr) :
  n <> [] ->
  (forall j, 0 < j < List.length n ->
             endswith (firstn j n) x = true ->
             startswith (skipn j n) y = true -> False) ->
  occurrences n (x ++ y) = occurrences n x + occurrences n y.
Proof.
  intros Hn; induction x as [|c x IH]; intros Hno.
  - cbn [app]; now rewrite occurrences_nil.
  - change ((c :: x) ++ y) with (c :: (x ++ y)).
    cbn [occurrences].
    rewrite IH.
    2:{ intros j Hj He Hs; apply (Hno j Hj); [now apply endswith_cons | exact Hs]. }
    change (c :: x ++ y) with ((c :: x) ++ y).
    destruct (startswith n (c :: x)) eqn:E1.
    + rewrite (startswith_app_l _ _ y E1); lia.
    + destruct (startswith n ((c :: x) ++ y)) eqn:E2; [|lia].
      exfalso.
      destruct (startswith_app_inv _ _ _ E2) as [H | (Hlen & Hf & Hs)];
        [congruence|].
      apply (Hno (List.length (c :: x))).
      * split; [simpl; lia | exact Hlen].
      * rewrite Hf; unfold endswith; apply startswith_refl.
      * exact Hs.
Qed.

Lemma clash_app (p a r : pystr) :
  clash p a = true -> startswith p (a ++ r) = false.
Proof.
  revert a; induction p as [|x p IH]; intros [|y a]; simpl; try easy.
  destruct (N.eqb x y); simpl; auto.
Qed.

Lemma junctions_spec (n : pystr) (j : nat) :
  0 < j < List.length n -> In j (junctions n).
Proof. intros H; apply in_seq; lia. Qed.

(** The right part starts with a text that no proper suffix of [n] fits. *)
Lemma occurrences_app_r (n x a r : pystr) :
  n <> [] ->
  forallb (fun j => clash (skipn j n) a) (junctions n) = true ->
  occurrences n (x ++ a ++ r) = occurrences n x + occurrences n (a ++ r).
Proof.
  intros Hn Hc; apply occurrences_app; [exact Hn|].
  intros j Hj _ Hs.
  rewrite forallb_forall in Hc.
  specialize (Hc j (junctions_spec n j Hj)).
  rewrite (clash_app _ _ r Hc) in Hs; discriminate.
Qed.

(** The left part ends with a text that no proper prefix of [n] fits. *)
Lemma occurrences_app_l (n k a y : pystr) :
  n <> [] ->
  forallb (fun j => clash (rev (firstn j n)) (rev a)) (junctions n) = true ->
  occurrences n ((k ++ a) ++ y) = occurrences n (k ++ a) + occurrences n y.
Proof.
  intros Hn Hc; apply occurrences_app; [exact Hn|].
  intros j Hj He _.
  rewrite forallb_forall in Hc.
  specialize (Hc j (junctions_spec n j Hj)).
  unfold endswith in He; rewrite rev_app_distr in He.
  rewrite (clash_app _ _ (rev k) Hc) in He; discriminate.
Qed.

End Substrings.

(** ** The formatter *)

Lemma marker_not_nil : MARKER <> [].
Proof. discriminate. Qed.

(** C8. The marker-append step is idempotent: applying it twice gives what
    applying it once gives, a body that already contains the marker is
    returned unchanged, and the step never duplicates the marker: the result
    has as many occurrences as the body had, or one if it had none. *)
Theorem append_marker_idempotent (b : pystr) :
  append_marker (append_marker b) = append_marker b
  /\ (contains MARKER b = true -> append_marker b = b)
  /\ occurrences MARKER (append_marker b) = Nat.max 1 (occurrences MARKER b).
Proof.
  unfold append_marker; fold MARKER.
  destruct (contains MARKER b) eqn:E; cbn [negb].
  - rewrite E; cbn [negb]. repeat split; auto.
    destruct (occurrences MARKER b) eqn:O; [|lia].
    apply contains_occurrences in O; congruence.
  - assert (H : contains MARKER (b ++ [10; 10] ++ MARKER) = true).
    { apply contains_app_r, contains_app_r, contains_prefix, startswith_refl. }
    rewrite H; cbn [negb]. split; [reflexivity|]. split; [discriminate|].
    apply contains_occurrences in E.
    pose proof (occurrences_app_r MARKER b ([10; 10] ++ MARKER) [] marker_not_nil
                  eq_refl) as Ho.
    rewrite app_nil_r in Ho. rewrite Ho, E. reflexivity.
Qed.

Lemma append_marker_idempotent_witness :
  contains MARKER (lit "<p>a</p><!-- AUTO_GENERATED -->") = true
  /\ append_marker (lit "<p>a</p><!-- AUTO_GENERATED -->")
     = lit "<p>a</p><!-- AUTO_GENERATED -->".
Proof.
  split; [reflexivity|].
  apply (append_marker_idempotent (lit "<p>a</p><!-- AUTO_GENERATED -->")).
  reflexivity.
Defined.



(** Plain text, for comparison, is wrapped. *)
Example wrap_paragraphs_plain :
  wrap_paragraphs (lit "hello" ++ [10] ++ lit "world")
  = lit "<p>hello" ++ [10] ++ lit "world</p>".
Proof. reflexivity. Qed.

Lemma startswith_firstn (k : nat) (s t : pystr) :
  startswith (firstn k s) (s ++ t) = true.
Proof.
  revert s; induction k as [|k IH]; intros [|c s]; simpl; try reflexivity.
  now rewrite N.eqb_refl, IH.
Qed.

(** C7. The excerpt the formatter derives is exactly the first 140
    characters of the body as it stands when the excerpt is taken (after the
    wrapping step, before the marker is appended): a hard cut, of length
    [min 140 (len body)], hence at most 140, and a prefix of the body that
    is sent. *)
Theorem excerpt_is_first_140 (cfg : config) (txt : pystr) :
  let wrapped := wrap_paragraphs (body_of (stripped_lines txt)) in
  let '(title, body, excerpt) := format_post cfg txt in
  excerpt = firstn 140 wrapped
  /\ List.length excerpt = Nat.min 140 (List.length wrapped)
  /\ (List.length excerpt <= 140)%nat
  /\ body = append_marker wrapped
  /\ startswith excerpt body = true.
Proof.
  unfold format_post; cbv zeta.
  set (w := wrap_paragraphs _).
  split; [reflexivity|].
  split; [apply length_firstn|].
  split; [rewrite length_firstn; lia|].
  split; [reflexivity|].
  unfold append_marker.
  destruct (negb _).
  - apply startswith_firstn.
  - rewrite <- (app_nil_r w) at 2. apply startswith_firstn.
Qed.

Example excerpt_of_long_text :
  let '(_, _, excerpt) :=
    format_post
      {| WP_URL := None; WP_USER := None; WP_APP_PASS := None; AFF_LINK := [];
         OPENAI_KEY := None; HF_TOKEN := None; PRIMARY_KEYWORD := lit "kw" |}
      (lit "T" ++ [10] ++ repeat 97 200) in
  excerpt = lit "<p>" ++ repeat 97 137.
Proof. vm_compute. reflexivity. Qed.

(** ** The local fallback generator *)

(** The three fixed stretches of the template, around the two copies of the
    keyword and the affiliate link. *)
Definition tpl_head : pystr :=
  lit " " ++ DASH ++ lit " A practical guide" ++ [10; 10]
  ++ lit "<h2>Introduction</h2><p>This article provides a concise overview for '".

Definition tpl_mid : pystr :=
  lit "'.</p>" ++ lit "<h2>Top picks</h2><ul><li>Tool A " ++ DASH
  ++ lit " Good for small teams</li><li>Tool B " ++ DASH
  ++ lit " Good for enterprise</li></ul>"
  ++ lit "<p>For more details and an affiliate offer, visit ".

Definition tpl_tail : pystr := lit "</p>" ++ [10; 10] ++ MARKER.

Definition no_linebreak (s : pystr) : bool :=
  forallb (fun c => negb (is_linebreak c)) s.

Lemma fallback_generate_pieces (cfg : config) (prompt : pystr) :
  fallback_generate cfg prompt
  = PRIMARY_KEYWORD cfg ++ tpl_head ++ PRIMARY_KEYWORD cfg ++ tpl_mid
    ++ AFF_LINK cfg ++ tpl_tail.
Proof.
  unfold fallback_generate, tpl_head, tpl_mid, tpl_tail, MARKER.
  repeat rewrite <- app_assoc. reflexivity.
Qed.

(** The template adds one occurrence of the marker to those of the keyword
    (used twice) and of the link. *)
Lemma fallback_generate_occurrences (cfg : config) (prompt : pystr) :
  occurrences MARKER (fallback_generate cfg prompt)
  = (1 + 2 * occurrences MARKER (PRIMARY_KEYWORD cfg)
     + occurrences MARKER (AFF_LINK cfg))%nat.
Proof.
  rewrite fallback_generate_pieces.
  set (K := PRIMARY_KEYWORD cfg). set (L := AFF_LINK cfg).
  rewrite (occurrences_app_r MARKER K tpl_head); [|exact marker_not_nil|reflexivity].
  pose proof (occurrences_app_l MARKER [] tpl_head (K ++ tpl_mid ++ L ++ tpl_tail)
                marker_not_nil eq_refl) as H1.
  cbn [app] in H1; rewrite H1; clear H1.
  rewrite (occurrences_app_r MARKER K tpl_mid); [|exact marker_not_nil|reflexivity].
  pose proof (occurrences_app_l MARKER [] tpl_mid (L ++ tpl_tail)
                marker_not_nil eq_refl) as H2.
  cbn [app] in H2; rewrite H2; clear H2.
  pose proof (occurrences_app_r MARKER L tpl_tail [] marker_not_nil eq_refl) as H3.
  rewrite app_nil_r in H3; rewrite H3; clear H3.
  change (occurrences MARKER tpl_head) with 0%nat.
  change (occurrences MARKER tpl_mid) with 0%nat.
  change (occurrences MARKER tpl_tail) with 1%nat.
  lia.
Qed.

Lemma splitlines_go_first (l r acc : pystr) :
  no_linebreak l = true ->
  splitlines_go false acc (l ++ 10 :: r)
  = (rev acc ++ l) :: splitlines_go false [] r.
Proof.
  revert acc; induction l as [|c l IH]; intros acc H.
  - cbn. now rewrite app_nil_r.
  - cbn [no_linebreak forallb] in H. apply andb_true_iff in H as [Hc Hl].
    cbn [app splitlines_go andb].
    destruct (is_linebreak c); [discriminate|].
    rewrite (IH (c :: acc) Hl). cbn [rev]. now rewrite <- app_assoc.
Qed.

(** The shipped defaults of the two optional settings. *)
Definition default_config : config :=
  {| WP_URL := Some (lit "https://blog.example");
     WP_USER := Some (lit "user");
     WP_APP_PASS := Some (lit "pass");
     AFF_LINK := lit "https://affiliate.example/?ref=you";
     OPENAI_KEY := None;
     HF_TOKEN := None;
     PRIMARY_KEYWORD := lit "best marketing automation tools 2025" |}.

(** A keyword that is itself the marker text. *)
Definition marker_keyword_config : config :=
  {| WP_URL := WP_URL default_config;
     WP_USER := WP_USER default_config;
     WP_APP_PASS := WP_APP_PASS default_config;
     AFF_LINK := AFF_LINK default_config;
     OPENAI_KEY := None;
     HF_TOKEN := None;
     PRIMARY_KEYWORD := lit "<!-- AUTO_GENERATED -->" |}.

(** C5, as stated, fails: with the marker text as keyword the returned text
    holds the marker three times, not once. *)
Lemma fallback_generate_marker_not_once :
  occurrences MARKER (fallback_generate marker_keyword_config []) = 3%nat
  /\ occurrences MARKER (fallback_generate marker_keyword_config []) <> 1%nat.
Proof. split; [vm_compute; reflexivity | vm_compute; discriminate]. Qed.

(** C5, amended. For every keyword and affiliate link the local fallback
    returns the title (the keyword, then an em dash between spaces, then
    "A practical guide"), a
    blank line, a non-empty body that contains the keyword and the link, a
    blank line and the marker.  The marker occurs once more than twice its
    occurrences in the keyword plus its occurrences in the link: exactly
    once if and only if neither the keyword nor the link contains it.  When
    the keyword has no line boundary, the title is the first line. *)
Theorem fallback_generate_structure (cfg : config) (prompt : pystr) :
  let kw := PRIMARY_KEYWORD cfg in
  let link := AFF_LINK cfg in
  let text := fallback_generate cfg prompt in
  let title := kw ++ lit " " ++ DASH ++ lit " A practical guide" in
  exists body : pystr,
    text = title ++ [10; 10] ++ body ++ [10; 10] ++ MARKER
    /\ body <> []
    /\ contains kw body = true
    /\ contains link body = true
    /\ occurrences MARKER text
       = (1 + 2 * occurrences MARKER kw + occurrences MARKER link)%nat
    /\ (occurrences MARKER text = 1%nat
        <-> contains MARKER kw = false /\ contains MARKER link = false)
    /\ (no_linebreak kw = true -> hd_error (splitlines text) = Some title).
Proof.
  intros kw link text title.
  exists (lit "<h2>Introduction</h2><p>This article provides a concise overview for '"
          ++ kw ++ tpl_mid ++ link ++ lit "</p>").
  assert (Htext : text = title ++ [10; 10]
                  ++ (lit "<h2>Introduction</h2><p>This article provides a concise overview for '"
                      ++ kw ++ tpl_mid ++ link ++ lit "</p>")
                  ++ [10; 10] ++ MARKER).
  { subst text title kw link. rewrite fallback_generate_pieces.
    unfold tpl_head, tpl_mid, tpl_tail.
    repeat rewrite <- app_assoc. reflexivity. }
  split; [exact Htext|].
  split; [discriminate|].
  split; [apply contains_app_r, contains_prefix, startswith_app|].
  split.
  { apply contains_app_r, contains_app_r, contains_app_r, contains_prefix,
      startswith_app. }
  pose proof (fallback_generate_occurrences cfg prompt) as Hocc.
  fold text kw link in Hocc.
  split; [exact Hocc|].
  split.
  { rewrite Hocc, !contains_occurrences. lia. }
  intros Hkw. rewrite Htext. unfold splitlines.
  replace (title ++ [10; 10] ++ _) with (title ++ 10 :: ([10] ++
      (lit "<h2>Introduction</h2><p>This article provides a concise overview for '"
       ++ kw ++ tpl_mid ++ link ++ lit "</p>") ++ [10; 10] ++ MARKER))
    by reflexivity.
  rewrite splitlines_go_first; [reflexivity|].
  subst title. unfold no_linebreak in *. rewrite forallb_app, Hkw. reflexivity.
Qed.

Lemma fallback_generate_structure_witness :
  no_linebreak (PRIMARY_KEYWORD default_config) = true
  /\ hd_error (splitlines (fallback_generate default_config []))
     = Some (lit "best marketing automation tools 2025 " ++ DASH
             ++ lit " A practical guide")
  /\ occurrences MARKER (fallback_generate default_config []) = 1%nat.
Proof.
  destruct (fallback_generate_structure default_config []) as
    (body & _ & _ & _ & _ & _ & Honce & Hfirst).
  split; [reflexivity|].
  split; [apply Hfirst; reflexivity|].
  apply Honce. split; reflexivity.
Defined.

(** ** Runs and their traces *)

Definition site_eqb (a b : site) : bool :=
  match a, b with
  | OpenAI, OpenAI | HF, HF | WpPost, WpPost
  | Unsplash, Unsplash | WpMedia, WpMedia | WpUpdate, WpUpdate => true
  | _, _ => false
  end.

(** The calls a trace holds for one call site, in order. *)
Fixpoint calls_at (s : site) (tr : trace) : list (request * response) :=
  match tr with
  | [] => []
  | Call s' rq rs :: r =>
      if site_eqb s s' then (rq, rs) :: calls_at s r else calls_at s r
  | Print _ :: r => calls_at s r
  end.

(** An event is a print or a call at one of the sites [ss]. *)
Definition only_sites (ss : list site) (e : event) : Prop :=
  match e with
  | Print _ => True
  | Call s _ _ => In s ss
  end.

(** [m] extends any trace by events that satisfy [P], with a result that
    satisfies [Q]. *)
Definition runs {A} (m : io A) (P : event -> Prop) (Q : result A -> Prop) : Prop :=
  forall tr, exists r evs, m tr = (r, tr ++ evs) /\ Forall P evs /\ Q r.

Definition any {A} (_ : result A) : Prop := True.

Definition returns {A} (r : result A) : Prop := exists a, r = Ok a.

(** A status that [raise_for_status] lets through. *)
Definition status_ok (st : N) : bool := negb ((400 <=? st) && (st <? 600)).

(** What [raise_for_status], [json()] and [.get("id")] make of the answer to
    a request: the path of [post_to_wp] and of [upload_media_to_wp] with the
    lookup of the identifier that follows each in [main]. *)
Definition id_of_response (rs : response) : result pyval :=
  match rs with
  | Failed x => Raise x
  | Http st c j =>
      let r := {| status_code := st; content := c; json_body := j |} in
      rbind (raise_for_status r) (fun _ =>
      rbind (json r) (fun res => py_get res (lit "id")))
  end.


(** [d.get("id")] on the fields of a JSON object. *)
Definition id_of (o : list (pystr * pyval)) : pyval :=
  match lookup (lit "id") o with
  | Some x => x
  | None => PNone
  end.

Section Traces.

Lemma calls_at_app (s : site) (a b : trace) :
  calls_at s (a ++ b) = calls_at s a ++ calls_at s b.
Proof.
  induction a as [|[args | s' rq rs] a IH]; cbn [app calls_at]; auto.
  destruct (site_eqb s s'); cbn [app]; now rewrite IH.
Qed.

Lemma site_eqb_eq (a b : site) : site_eqb a b = true <-> a = b.
Proof. destruct a, b; cbn; split; congruence. Qed.

Lemma calls_at_only (ss : list site) (s : site) (evs : trace) :
  Forall (only_sites ss) evs -> ~ In s ss -> calls_at s evs = [].
Proof.
  intros H Hs; induction H as [|[args | s' rq rs] evs He _ IH]; cbn [calls_at]; auto.
  destruct (site_eqb s s') eqn:E; [|exact IH].
  apply site_eqb_eq in E; subst s'. now elim Hs.
Qed.

Context {A B : Type} (P : event -> Prop).

Lemma runs_weaken (m : io A) (P' : event -> Prop) (Q : result A -> Prop) :
  runs m P Q -> (forall e, P e -> P' e) -> runs m P' Q.
Proof.
  intros Hm Hp tr. destruct (Hm tr) as (r & evs & E & H & Hq).
  exists r, evs. repeat split; auto.
  eapply Forall_impl; eauto.
Qed.

Lemma runs_ret (a : A) (Q : result A -> Prop) : Q (Ok a) -> runs (ret a) P Q.
Proof. intros H tr; exists (Ok a), []; rewrite app_nil_r; auto. Qed.

Lemma runs_throw (e : exn) (Q : result A -> Prop) :
  Q (Raise e) -> runs (throw e) P Q.
Proof. intros H tr; exists (Raise e), []; rewrite app_nil_r; auto. Qed.

Lemma runs_lift (r : result A) (Q : result A -> Prop) : Q r -> runs (lift r) P Q.
Proof. intros H tr; exists r, []; rewrite app_nil_r; auto. Qed.

Lemma runs_print (args : list printed) (Q : result unit -> Prop) :
  P (Print args) -> Q (Ok tt) -> runs (print args) P Q.
Proof. intros Hp H tr; exists (Ok tt), [Print args]; auto. Qed.

Lemma runs_send (net : network) (s : site) (rq : request) :
  (forall rs, P (Call s rq rs)) -> runs (send net s rq) P any.
Proof.
  intros Hp tr; unfold send.
  eexists _, [Call s rq (net tr s rq)]; split; [reflexivity|].
  split; [auto | exact I].
Qed.

Lemma runs_bind (m : io A) (k : A -> io B)
      (Q1 : result A -> Prop) (Q : result B -> Prop) :
  runs m P Q1 ->
  (forall a, Q1 (Ok a) -> runs (k a) P Q) ->
  (forall e, Q1 (Raise e) -> Q (Raise e)) ->
  runs (bind m k) P Q.
Proof.
  intros Hm Hk He tr; unfold bind.
  destruct (Hm tr) as (r & evs & -> & Hevs & Hr).
  destruct r as [a | e].
  - destruct (Hk a Hr (tr ++ evs)) as (r' & evs' & -> & Hevs' & Hr').
    exists r', (evs ++ evs'); rewrite app_assoc; split; [reflexivity|].
    split; [now apply Forall_app | exact Hr'].
  - exists (Raise e), evs; auto.
Qed.

Lemma runs_try (m : io A) (h : exn -> io A) (Q1 Q : result A -> Prop) :
  runs m P Q1 ->
  (forall a, Q1 (Ok a) -> Q (Ok a)) ->
  (forall e, Q1 (Raise e) -> runs (h e) P Q) ->
  runs (try_except m h) P Q.
Proof.
  intros Hm Hok Hh tr; unfold try_except.
  destruct (Hm tr) as (r & evs & -> & Hevs & Hr).
  destruct r as [a | e].
  - exists (Ok a), evs; auto.
  - destruct (Hh e Hr (tr ++ evs)) as (r' & evs' & -> & Hevs' & Hr').
    exists r', (evs ++ evs'); rewrite app_assoc; split; [reflexivity|].
    split; [now apply Forall_app | exact Hr'].
Qed.

End Traces.

Ltac runs_any :=
  repeat first
    [ apply runs_ret; exact I
    | apply runs_throw; exact I
    | apply runs_lift; exact I
    | apply runs_print; [exact I | exact I]
    | apply runs_send; intros; cbn; tauto
    | eapply runs_bind with (Q1 := any); [ | intros ? _ | intros ? _; exact I ]
    | match goal with
      | |- runs (if ?b then _ else _) _ _ => destruct b
      | |- runs (let '(_, _) := ?x in _) _ _ => destruct x
      end ].

Section Runs.

Variable repr_container : pyval -> pystr.
Variable cfg : config.
Variable net : network.

Lemma call_openai_runs (prompt : pystr) :
  runs (call_openai cfg net prompt) (only_sites [OpenAI]) any.
Proof. unfold call_openai. runs_any. Qed.

Lemma call_hf_runs (prompt : pystr) :
  runs (call_hf repr_container cfg net prompt) (only_sites [HF]) any.
Proof. unfold call_hf. runs_any. Qed.

(** The generator always returns a value, and calls the two model backends
    only. *)
Lemma generate_content_runs :
  runs (generate_content repr_container cfg net) (only_sites [OpenAI; HF]) returns.
Proof.
  unfold generate_content.
  eapply runs_try with (Q1 := any).
  - destruct (is_set (OPENAI_KEY cfg));
      [eapply runs_weaken; [apply call_openai_runs|] | eapply runs_weaken; [apply call_hf_runs|]];
      intros [|? ? ?]; cbn; tauto.
  - intros a _. eexists; reflexivity.
  - intros e _.
    eapply runs_bind with (Q1 := returns);
      [apply runs_print; [exact I | eexists; reflexivity] | intros ? _
      | intros ? [? ?]; discriminate].
    eapply runs_bind with (Q1 := returns);
      [apply runs_print; [exact I | eexists; reflexivity] | intros ? _
      | intros ? [? ?]; discriminate].
    apply runs_ret. eexists; reflexivity.
Qed.

Lemma attach_image_runs (post_id : pyval) :
  runs (attach_image repr_container cfg net post_id)
       (only_sites [Unsplash; WpMedia; WpUpdate]) any.
Proof.
  unfold attach_image, fetch_unsplash_image, upload_media_to_wp. runs_any.
Qed.

End Runs.

(** ** The publishing part of a run, case by case *)

(** What [raise_for_status] and [.content] make of the image answer. *)
Definition image_of (rs : response) : result pybytes :=
  match rs with
  | Failed x => Raise x
  | Http st c j =>
      let r := {| status_code := st; content := c; json_body := j |} in
      rbind (raise_for_status r) (fun _ => Ok c)
  end.

(** What [raise_for_status] makes of the answer to the update request. *)
Definition status_of (rs : response) : result unit :=
  match rs with
  | Failed x => Raise x
  | Http st c j =>
      raise_for_status {| status_code := st; content := c; json_body := j |}
  end.

(** The request [fetch_unsplash_image("saas dashboard")] sends. *)
Definition image_request : request :=
  {| method := GET;
     url := lit "https://source.unsplash.com/1200x630/?saas%20dashboard";
     headers := [];
     body := NoBody;
     timeout := Some 30 |}.

Section Publishing.

Variable repr_container : pyval -> pystr.
Variable cfg : config.
Variable net : network.

(** The request [post_to_wp] sends, given the credentials header value. *)
Definition post_request (auth title html_content excerpt : pystr) : request :=
  {| method := POST;
     url := fmt (WP_URL cfg) ++ lit "/wp-json/wp/v2/posts";
     headers := [(lit "Authorization", lit "Basic " ++ auth);
                 (lit "Content-Type", lit "application/json")];
     body := JsonBody (PDict [(lit "title", PStr title);
                              (lit "content", PStr html_content);
                              (lit "excerpt", PStr excerpt);
                              (lit "status", PStr (lit "draft"))]);
     timeout := Some 30 |}.

(** The request [upload_media_to_wp(img, filename="hero.jpg")] sends. *)
Definition media_request (auth : pystr) (img : pybytes) : request :=
  {| method := POST;
     url := fmt (WP_URL cfg) ++ lit "/wp-json/wp/v2/media";
     headers := [(lit "Authorization", lit "Basic " ++ auth);
                 (lit "Content-Disposition",
                  lit "attachment; filename=" ++ [34] ++ lit "hero.jpg" ++ [34]);
                 (lit "Content-Type", lit "image/jpeg")];
     body := DataBody img;
     timeout := Some 60 |}.

(** The featured-media update request. *)
Definition update_request (auth : pystr) (post_id media_id : pyval) : request :=
  {| method := POST;
     url := fmt (WP_URL cfg) ++ lit "/wp-json/wp/v2/posts/"
            ++ py_str repr_container post_id;
     headers := [(lit "Authorization", lit "Basic " ++ auth);
                 (lit "Content-Type", lit "application/json")];
     body := JsonBody (PDict [(lit "featured_media", media_id)]);
     timeout := Some 30 |}.

(** How a run of [main] ends once the post is created and reported: the
    image step runs, and an exception it raises is printed. *)
Definition after_draft (post_id : pyval) (tr : trace) : trace :=
  match attach_image repr_container cfg net post_id tr with
  | (Ok _, tr') => tr'
  | (Raise x, tr') => tr' ++ [Print [PS (lit "Image attach failed:"); PE x]]
  end.

Lemma publish_cases (title html excerpt : pystr) (tr : trace) :
  match basic_auth cfg with
  | Raise x =>
      publish repr_container cfg net title html excerpt tr
      = (Ok tt, tr ++ [Print [PS (lit "Failed to post:"); PE x]])
  | Ok auth =>
      let rq := post_request auth title html excerpt in
      let rs := net tr WpPost rq in
      match id_of_response rs with
      | Raise x =>
          publish repr_container cfg net title html excerpt tr
          = (Ok tt, tr ++ [Call WpPost rq rs;
                           Print [PS (lit "Failed to post:"); PE x]])
      | Ok post_id =>
          publish repr_container cfg net title html excerpt tr
          = (Ok tt,
             after_draft post_id
               (tr ++ [Call WpPost rq rs;
                       Print [PS (lit "Draft created. Post ID:"); PV post_id]]))
      end
  end.
Proof.
  unfold publish, post_to_wp, try_except, bind, lift, send, print, after_draft,
    id_of_response, post_request.
  destruct (basic_auth cfg) as [auth | x]; [|reflexivity].
  cbv zeta.
  destruct (net tr WpPost _) as [x | st c j]; cbn [rbind].
  - rewrite <- app_assoc. reflexivity.
  - destruct (raise_for_status _) as [[] | x]; cbn [rbind].
    2:{ rewrite <- app_assoc. reflexivity. }
    destruct (json _) as [res | x]; cbn [rbind].
    2:{ rewrite <- app_assoc. reflexivity. }
    destruct (py_get res _) as [post_id | x].
    2:{ rewrite <- app_assoc. reflexivity. }
    rewrite <- app_assoc. cbn [app].
    destruct (attach_image _ _ _ _ _) as [[[] | x] tr']; reflexivity.
Qed.

Lemma attach_image_cases (post_id : pyval) (tr : trace) :
  let rs_i := net tr Unsplash image_request in
  let tr1 := tr ++ [Call Unsplash image_request rs_i] in
  match image_of rs_i with
  | Raise x => attach_image repr_container cfg net post_id tr = (Raise x, tr1)
  | Ok img =>
      match basic_auth cfg with
      | Raise x => attach_image repr_container cfg net post_id tr = (Raise x, tr1)
      | Ok auth =>
          let rq_m := media_request auth img in
          let rs_m := net tr1 WpMedia rq_m in
          let tr2 := tr1 ++ [Call WpMedia rq_m rs_m] in
          match id_of_response rs_m with
          | Raise x =>
              attach_image repr_container cfg net post_id tr = (Raise x, tr2)
          | Ok media_id =>
              if truthy post_id && truthy media_id then
                let rq_u := update_request auth post_id media_id in
                let rs_u := net tr2 WpUpdate rq_u in
                let tr3 := tr2 ++ [Call WpUpdate rq_u rs_u] in
                match status_of rs_u with
                | Raise x =>
                    attach_image repr_container cfg net post_id tr = (Raise x, tr3)
                | Ok _ =>
                    attach_image repr_container cfg net post_id tr
                    = (Ok tt, tr3 ++ [Print [PS (lit "Featured image set.")]])
                end
              else attach_image repr_container cfg net post_id tr = (Ok tt, tr2)
          end
      end
  end.
Proof.
  unfold attach_image, fetch_unsplash_image, upload_media_to_wp.
  change (quote (lit "saas dashboard")) with (Ok (lit "saas%20dashboard")).
  unfold bind, lift, send, print, ret, image_of, id_of_response, status_of,
    media_request, update_request.
  change {| method := GET;
            url := lit "https://source.unsplash.com/1200x630/?" ++ lit "saas%20dashboard";
            headers := []; body := NoBody; timeout := Some 30 |}
    with image_request.
  cbv zeta.
  destruct (net tr Unsplash image_request) as [x | st c j]; cbn [rbind];
    [reflexivity|].
  destruct (raise_for_status _) as [[] | x]; cbn [rbind]; [|reflexivity].
  cbn [content].
  destruct (basic_auth cfg) as [auth | x]; [|reflexivity].
  destruct (net _ WpMedia _) as [x | st' c' j']; cbn [rbind]; [reflexivity|].
  destruct (raise_for_status _) as [[] | x]; cbn [rbind]; [|reflexivity].
  destruct (json _) as [media | x]; cbn [rbind]; [|reflexivity].
  destruct (py_get media _) as [media_id | x]; [|reflexivity].
  destruct (truthy post_id && truthy media_id); [|reflexivity].
  destruct (net _ WpUpdate _) as [x | st'' c'' j'']; [reflexivity|].
  destruct (raise_for_status _) as [[] | x]; reflexivity.
Qed.

End Publishing.

(** ** The shape of the image step *)

Ltac norm_trace := repeat rewrite <- app_assoc in *; cbn [app] in *.

Section ImageStep.

Variable repr_container : pyval -> pystr.
Variable cfg : config.
Variable net : network.

Definition IMAGE_FAILED (x : exn) : event :=
  Print [PS (lit "Image attach failed:"); PE x].

(** The six ways the image step can go after the trace [tr], with the trace
    the run ends with. *)
Inductive image_shape (post_id : pyval) (tr : trace) : trace -> Prop :=
| image_fetch_failed (rs : response) (x : exn) :
    rs = net tr Unsplash image_request ->
    image_of rs = Raise x ->
    image_shape post_id tr
      (tr ++ [Call Unsplash image_request rs; IMAGE_FAILED x])
| image_no_auth (rs : response) (img : pybytes) (x : exn) :
    rs = net tr Unsplash image_request ->
    image_of rs = Ok img ->
    basic_auth cfg = Raise x ->
    image_shape post_id tr
      (tr ++ [Call Unsplash image_request rs; IMAGE_FAILED x])
| image_upload_failed (rs rs_m : response) (img : pybytes) (auth : pystr) (x : exn) :
    rs = net tr Unsplash image_request ->
    image_of rs = Ok img ->
    basic_auth cfg = Ok auth ->
    rs_m = net (tr ++ [Call Unsplash image_request rs]) WpMedia
               (media_request cfg auth img) ->
    id_of_response rs_m = Raise x ->
    image_shape post_id tr
      (tr ++ [Call Unsplash image_request rs;
              Call WpMedia (media_request cfg auth img) rs_m; IMAGE_FAILED x])
| image_link_skipped (rs rs_m : response) (img : pybytes) (auth : pystr)
                     (media_id : pyval) :
    rs = net tr Unsplash image_request ->
    image_of rs = Ok img ->
    basic_auth cfg = Ok auth ->
    rs_m = net (tr ++ [Call Unsplash image_request rs]) WpMedia
               (media_request cfg auth img) ->
    id_of_response rs_m = Ok media_id ->
    truthy post_id && truthy media_id = false ->
    image_shape post_id tr
      (tr ++ [Call Unsplash image_request rs;
              Call WpMedia (media_request cfg auth img) rs_m])
| image_update_failed (rs rs_m rs_u : response) (img : pybytes) (auth : pystr)
                      (media_id : pyval) (x : exn) :
    rs = net tr Unsplash image_request ->
    image_of rs = Ok img ->
    basic_auth cfg = Ok auth ->
    rs_m = net (tr ++ [Call Unsplash image_request rs]) WpMedia
               (media_request cfg auth img) ->
    id_of_response rs_m = Ok media_id ->
    truthy post_id && truthy media_id = true ->
    rs_u = net (tr ++ [Call Unsplash image_request rs;
                       Call WpMedia (media_request cfg auth img) rs_m])
               WpUpdate (update_request repr_container cfg auth post_id media_id) ->
    status_of rs_u = Raise x ->
    image_shape post_id tr
      (tr ++ [Call Unsplash image_request rs;
              Call WpMedia (media_request cfg auth img) rs_m;
              Call WpUpdate (update_request repr_container cfg auth post_id media_id) rs_u;
              IMAGE_FAILED x])
| image_linked (rs rs_m rs_u : response) (img : pybytes) (auth : pystr)
               (media_id : pyval) :
    rs = net tr Unsplash image_request ->
    image_of rs = Ok img ->
    basic_auth cfg = Ok auth ->
    rs_m = net (tr ++ [Call Unsplash image_request rs]) WpMedia
               (media_request cfg auth img) ->
    id_of_response rs_m = Ok media_id ->
    truthy post_id && truthy media_id = true ->
    rs_u = net (tr ++ [Call Unsplash image_request rs;
                       Call WpMedia (media_request cfg auth img) rs_m])
               WpUpdate (update_request repr_container cfg auth post_id media_id) ->
    status_of rs_u = Ok tt ->
    image_shape post_id tr
      (tr ++ [Call Unsplash image_request rs;
              Call WpMedia (media_request cfg auth img) rs_m;
              Call WpUpdate (update_request repr_container cfg auth post_id media_id) rs_u;
              Print [PS (lit "Featured image set.")]]).

Lemma after_draft_shape (post_id : pyval) (tr : trace) :
  image_shape post_id tr (after_draft repr_container cfg net post_id tr).
Proof.
  unfold after_draft.
  pose proof (attach_image_cases repr_container cfg net post_id tr) as H.
  cbv zeta in H.
  destruct (image_of _) as [img | x] eqn:Hi.
  2:{ rewrite H; norm_trace. eapply image_fetch_failed; eauto. }
  destruct (basic_auth cfg) as [auth | x] eqn:Ha.
  2:{ rewrite H; norm_trace. eapply image_no_auth; eauto. }
  destruct (id_of_response _) as [media_id | x] eqn:Hm.
  2:{ rewrite H; norm_trace. eapply image_upload_failed; eauto. }
  destruct (truthy post_id && truthy media_id) eqn:Ht.
  2:{ rewrite H; norm_trace. eapply image_link_skipped; eauto. }
  destruct (status_of _) as [[] | x] eqn:Hu.
  - rewrite H; norm_trace. eapply image_linked; eauto.
  - rewrite H; norm_trace. eapply image_update_failed; eauto.
Qed.

End ImageStep.

(** ** The shape of a run of [main] *)

Definition GENERATING : event := Print [PS (lit "Generating content...")].


Section MainRuns.

Variable repr_container : pyval -> pystr.
Variable cfg : config.
Variable net : network.

(** The trace of a run up to the end of the generation step. *)
Definition generation_trace (pre : trace) : Prop :=
  exists evs, pre = GENERATING :: evs /\ Forall (only_sites [OpenAI; HF]) evs.

(** The four ways a run of [main] can go, with its result and its trace. *)
Inductive main_shape : result unit -> trace -> Prop :=
| shape_no_text (pre : trace) (v : pyval) :
    generation_trace pre ->
    generate_content repr_container cfg net [GENERATING] = (Ok v, pre) ->
    (forall s, v <> PStr s) ->
    main_shape (Raise AttributeError) pre
| shape_no_auth (pre : trace) (x : exn) :
    generation_trace pre ->
    basic_auth cfg = Raise x ->
    main_shape (Ok tt) (pre ++ [Print [PS (lit "Failed to post:"); PE x]])
| shape_post_failed (pre : trace) (txt auth title html excerpt : pystr) (x : exn) :
    generation_trace pre ->
    generate_content repr_container cfg net [GENERATING] = (Ok (PStr txt), pre) ->
    format_post cfg txt = (title, html, excerpt) ->
    basic_auth cfg = Ok auth ->
    let rq := post_request cfg auth title html excerpt in
    let rs := net pre WpPost rq in
    id_of_response rs = Raise x ->
    main_shape (Ok tt)
               (pre ++ [Call WpPost rq rs; Print [PS (lit "Failed to post:"); PE x]])
| shape_posted (pre : trace) (txt auth title html excerpt : pystr) (post_id : pyval) :
    generation_trace pre ->
    generate_content repr_container cfg net [GENERATING] = (Ok (PStr txt), pre) ->
    format_post cfg txt = (title, html, excerpt) ->
    basic_auth cfg = Ok auth ->
    let rq := post_request cfg auth title html excerpt in
    let rs := net pre WpPost rq in
    id_of_response rs = Ok post_id ->
    main_shape (Ok tt)
               (after_draft repr_container cfg net post_id
                  (pre ++ [Call WpPost rq rs;
                           Print [PS (lit "Draft created. Post ID:"); PV post_id]])).

Lemma main_has_shape :
  main_shape (fst (main repr_container cfg net []))
             (snd (main repr_container cfg net [])).
Proof.
  assert (Hm : main repr_container cfg net []
               = let (r, tr) := generate_content repr_container cfg net [GENERATING] in
                 match r with
                 | Ok v => format_and_publish repr_container cfg net v tr
                 | Raise e => (Raise e, tr)
                 end) by reflexivity.
  destruct (generate_content_runs repr_container cfg net [GENERATING])
    as (r & evs & E & Hevs & [v ->]).
  rewrite Hm, E. clear Hm. cbn [app] in *.
  assert (Hpre : generation_trace (GENERATING :: evs)) by (exists evs; auto).
  destruct v as [| b | z | f | s | l | d];
    try (cbn; eapply shape_no_text; [exact Hpre | exact E | discriminate]).
  unfold format_and_publish.
  destruct (format_post cfg s) as [[title html] excerpt] eqn:F.
  pose proof (publish_cases repr_container cfg net title html excerpt
                (GENERATING :: evs)) as Hp.
  destruct (basic_auth cfg) as [auth | x] eqn:Ha.
  - cbv zeta in Hp.
    destruct (id_of_response _) as [post_id | x] eqn:Hid; rewrite Hp; cbn [fst snd].
    + eapply shape_posted; eauto.
    + eapply shape_post_failed; eauto.
  - rewrite Hp; cbn [fst snd]. now apply shape_no_auth.
Qed.

Lemma generation_trace_no_call (pre : trace) (s : site) :
  generation_trace pre -> s <> OpenAI -> s <> HF -> calls_at s pre = [].
Proof.
  intros (evs & -> & H) H1 H2. cbn [GENERATING calls_at].
  apply (calls_at_only [OpenAI; HF]); [exact H|].
  cbn; intuition congruence.
Qed.

Lemma after_draft_extends (post_id : pyval) (tr : trace) :
  exists evs, after_draft repr_container cfg net post_id tr = tr ++ evs
              /\ Forall (only_sites [Unsplash; WpMedia; WpUpdate]) evs.
Proof.
  unfold after_draft.
  destruct (attach_image_runs repr_container cfg net post_id tr)
    as (r & evs & -> & H & _).
  destruct r as [a | x].
  - exists evs; auto.
  - exists (evs ++ [Print [PS (lit "Image attach failed:"); PE x]]).
    rewrite app_assoc; split; [reflexivity|].
    apply Forall_app; split; [exact H | repeat constructor].
Qed.


Lemma id_of_response_ok (rs : response) (v : pyval) :
  id_of_response rs = Ok v ->
  exists st c o, rs = Http st c (Some (PDict o))
                 /\ status_ok st = true /\ v = id_of o.
Proof.
  destruct rs as [x | st c j]; cbn [id_of_response]; [discriminate|].
  unfold raise_for_status, json, status_ok; cbn [status_code json_body].
  destruct ((400 <=? st) && (st <? 600)) eqn:E; cbn [rbind]; [discriminate|].
  destruct j as [res|]; cbn [rbind]; [|discriminate].
  destruct res; cbn [py_get]; try discriminate.
  intros [= <-]. eexists _, _, _; repeat split. now rewrite E.
Qed.

Lemma id_of_response_object (st : N) (c : pybytes) (o : list (pystr * pyval)) :
  status_ok st = true ->
  id_of_response (Http st c (Some (PDict o))) = Ok (id_of o).
Proof.
  unfold status_ok, id_of_response, raise_for_status, json; cbn [status_code json_body].
  intros H; apply negb_true_iff in H; rewrite H. reflexivity.
Qed.

End MainRuns.

(** ** Properties of whole runs *)

(** The formatter always hands over a body that holds the marker. *)
Lemma append_marker_contains (b : pystr) : contains MARKER (append_marker b) = true.
Proof.
  unfold append_marker; fold MARKER.
  destruct (contains MARKER b) eqn:E; cbn [negb]; [exact E|].
  apply contains_app_r, contains_app_r, contains_prefix, startswith_refl.
Qed.

Lemma format_post_marker (cfg : config) (txt title html excerpt : pystr) :
  format_post cfg txt = (title, html, excerpt) -> contains MARKER html = true.
Proof.
  unfold format_post; cbv zeta. intros [= _ <- _]. apply append_marker_contains.
Qed.

Section Claims.

Variable repr_container : pyval -> pystr.
Variable cfg : config.
Variable net : network.

Local Abbreviation outcome := (fst (main repr_container cfg net [])).
Local Abbreviation run := (snd (main repr_container cfg net [])).

Ltac in_calls H :=
  repeat rewrite calls_at_app in H;
  match goal with
  | Hg : generation_trace _ |- _ =>
      repeat (rewrite (generation_trace_no_call _ _ Hg) in H by discriminate)
  end;
  cbn [calls_at site_eqb app In IMAGE_FAILED] in H.

Ltac calls :=
  repeat rewrite calls_at_app;
  match goal with
  | Hg : generation_trace _ |- _ =>
      repeat (rewrite (generation_trace_no_call _ _ Hg) by discriminate)
  end;
  cbn [calls_at site_eqb app IMAGE_FAILED].

(** The calls of a run that got as far as reporting the draft. *)
Lemma posted_post_calls (pre : trace) (rq : request) (rs : response) (post_id : pyval) :
  generation_trace pre ->
  calls_at WpPost
    (after_draft repr_container cfg net post_id
       (pre ++ [Call WpPost rq rs;
                Print [PS (lit "Draft created. Post ID:"); PV post_id]]))
  = [(rq, rs)].
Proof.
  intros Hpre.
  destruct (after_draft_extends repr_container cfg net post_id
              (pre ++ [Call WpPost rq rs;
                       Print [PS (lit "Draft created. Post ID:"); PV post_id]]))
    as (evs & -> & Hevs).
  calls.
  rewrite (calls_at_only _ WpPost evs Hevs) by (cbn; intuition discriminate).
  reflexivity.
Qed.



(** C6. In every run, the body handed to the post-creation call is the one
    the formatter made of the generated text, and it contains the marker. *)
Theorem posted_body_has_marker (rq : request) (rs : response) :
  In (rq, rs) (calls_at WpPost run) ->
  exists txt title html excerpt,
    fst (generate_content repr_container cfg net [GENERATING]) = Ok (PStr txt)
    /\ format_post cfg txt = (title, html, excerpt)
    /\ body rq = JsonBody (PDict [(lit "title", PStr title);
                                  (lit "content", PStr html);
                                  (lit "excerpt", PStr excerpt);
                                  (lit "status", PStr (lit "draft"))])
    /\ contains MARKER html = true.
Proof.
  destruct (main_has_shape repr_container cfg net)
    as [pre v Hpre _ _ | pre x Hpre _
        | pre txt auth title html excerpt x Hpre Hgen Hfmt _ rq0 rs0 Hid
        | pre txt auth title html excerpt post_id Hpre Hgen Hfmt _ rq0 rs0 Hid];
    intros Hin.
  - in_calls Hin. contradiction.
  - in_calls Hin. contradiction.
  - in_calls Hin. destruct Hin as [[= <- _] | []].
    exists txt, title, html, excerpt. rewrite Hgen.
    repeat split; auto. eapply format_post_marker; eauto.
  - rewrite posted_post_calls in Hin by exact Hpre.
    destruct Hin as [[= <- _] | []].
    exists txt, title, html, excerpt. rewrite Hgen.
    repeat split; auto. eapply format_post_marker; eauto.
Qed.

Ltac main_shapes :=
  destruct (main_has_shape repr_container cfg net)
    as [pre v Hpre _ _ | pre x Hpre _
        | pre txt auth title html excerpt x Hpre Hgen Hfmt Hauth rq0 rs0 Hid
        | pre txt auth title html excerpt post_id Hpre Hgen Hfmt Hauth rq0 rs0 Hid].

Ltac image_shapes :=
  match goal with
  | |- context [after_draft ?r ?c ?n ?p ?t] =>
      destruct (after_draft_shape r c n p t)
        as [rs_i x Hrs_i Himg
           | rs_i img x Hrs_i Himg Hauth'
           | rs_i rs_m img auth' x Hrs_i Himg Hauth' Hrs_m Hmid
           | rs_i rs_m img auth' media_id Hrs_i Himg Hauth' Hrs_m Hmid Hboth
           | rs_i rs_m rs_u img auth' media_id x Hrs_i Himg Hauth' Hrs_m Hmid Hboth Hrs_u Hupd
           | rs_i rs_m rs_u img auth' media_id Hrs_i Himg Hauth' Hrs_m Hmid Hboth Hrs_u Hupd]
  end.

(** The update request is sent only after a post-creation answer and a
    media-upload answer that both carry a true identifier. *)
Lemma update_only_with_both_ids (rq : request) (rs : response) :
  In (rq, rs) (calls_at WpUpdate run) ->
  exists rq1 st1 c1 o1 rq2 st2 c2 o2,
    calls_at WpPost run = [(rq1, Http st1 c1 (Some (PDict o1)))]
    /\ calls_at WpMedia run = [(rq2, Http st2 c2 (Some (PDict o2)))]
    /\ status_ok st1 = true /\ status_ok st2 = true
    /\ truthy (id_of o1) = true /\ truthy (id_of o2) = true
    /\ body rq = JsonBody (PDict [(lit "featured_media", id_of o2)]).
Proof.
  main_shapes.
  1-3: intros Hin; in_calls Hin; contradiction.
  image_shapes; intros Hin; in_calls Hin; try contradiction.
  all: destruct Hin as [[= <- _] | []].
  all: destruct (id_of_response_ok _ _ Hid) as (st1 & c1 & o1 & E1 & S1 & ->).
  all: destruct (id_of_response_ok _ _ Hmid) as (st2 & c2 & o2 & E2 & S2 & ->).
  all: apply andb_true_iff in Hboth as [T1 T2].
  all: exists rq0, st1, c1, o1, (media_request cfg auth' img), st2, c2, o2.
  all: calls; rewrite <- E1, <- E2; repeat split; auto.
Qed.

(** With a created post and an uploaded media, but one of the two
    identifiers missing or false, the run ends after the upload: no update
    request, nothing printed, no exception. *)
Lemma update_skipped_silently
      (rq1 : request) (st1 : N) (c1 : pybytes) (o1 : list (pystr * pyval))
      (rq2 : request) (st2 : N) (c2 : pybytes) (o2 : list (pystr * pyval)) :
  In (rq1, Http st1 c1 (Some (PDict o1))) (calls_at WpPost run) ->
  status_ok st1 = true ->
  In (rq2, Http st2 c2 (Some (PDict o2))) (calls_at WpMedia run) ->
  status_ok st2 = true ->
  truthy (id_of o1) && truthy (id_of o2) = false ->
  outcome = Ok tt
  /\ calls_at WpUpdate run = []
  /\ exists pre, run = pre ++ [Call WpMedia rq2 (Http st2 c2 (Some (PDict o2)))].
Proof.
  main_shapes.
  1-3: intros _ _ Hin; in_calls Hin; contradiction.
  intros Hp S1 Hm S2 Hno.
  rewrite posted_post_calls in Hp by exact Hpre.
  destruct Hp as [[= <- E1] | []].
  rewrite E1, (id_of_response_object st1 c1 o1 S1) in Hid. injection Hid as <-.
  revert Hm. cbn [fst].
  image_shapes; intros Hm; in_calls Hm; try contradiction.
  all: destruct Hm as [[= <- E2] | []].
  all: rewrite E2, (id_of_response_object st2 c2 o2 S2) in Hmid.
  all: try discriminate.
  all: injection Hmid as <-.
  2-3: rewrite Hno in Hboth; discriminate.
  split; [reflexivity|]. split; [calls; reflexivity|].
  exists ((pre ++ [Call WpPost rq0 rs0;
                   Print [PS (lit "Draft created. Post ID:"); PV (id_of o1)]])
          ++ [Call Unsplash image_request rs_i]).
  rewrite <- E2, <- !app_assoc. reflexivity.
Qed.

(** C10. The featured-media update request is sent only when the
    post-creation answer and the media-upload answer both carry a true "id";
    when a post was created and a media uploaded but either identifier is
    missing or false, the link step is skipped: no update request, nothing
    printed after the upload, and [main] returns normally. *)
Theorem featured_media_needs_both_ids :
  (forall rq rs,
      In (rq, rs) (calls_at WpUpdate run) ->
      exists rq1 st1 c1 o1 rq2 st2 c2 o2,
        calls_at WpPost run = [(rq1, Http st1 c1 (Some (PDict o1)))]
        /\ calls_at WpMedia run = [(rq2, Http st2 c2 (Some (PDict o2)))]
        /\ status_ok st1 = true /\ status_ok st2 = true
        /\ truthy (id_of o1) = true /\ truthy (id_of o2) = true
        /\ body rq = JsonBody (PDict [(lit "featured_media", id_of o2)]))
  /\ (forall rq1 st1 c1 o1 rq2 st2 c2 o2,
         In (rq1, Http st1 c1 (Some (PDict o1))) (calls_at WpPost run) ->
         status_ok st1 = true ->
         In (rq2, Http st2 c2 (Some (PDict o2))) (calls_at WpMedia run) ->
         status_ok st2 = true ->
         truthy (id_of o1) && truthy (id_of o2) = false ->
         outcome = Ok tt
         /\ calls_at WpUpdate run = []
         /\ exists pre,
              run = pre ++ [Call WpMedia rq2 (Http st2 c2 (Some (PDict o2)))]).
Proof.
  split.
  - exact update_only_with_both_ids.
  - exact update_skipped_silently.
Qed.

(** C2, amended. The image fetch asks for the image of its query argument:
    the GET URL is the address of the image service followed by the
    URL-quoted query.  [main] always passes the query "saas dashboard", so
    in every run the image request is the same, whatever the keyword. *)
Theorem image_url_holds_quoted_query :
  (forall (query q : pystr) (tr : trace),
      quote query = Ok q ->
      let rq := {| method := GET;
                   url := lit "https://source.unsplash.com/1200x630/?" ++ q;
                   headers := []; body := NoBody; timeout := Some 30 |} in
      snd (fetch_unsplash_image net query tr)
      = tr ++ [Call Unsplash rq (net tr Unsplash rq)]
      /\ contains q (url rq) = true)
  /\ (forall rq rs,
         In (rq, rs) (calls_at Unsplash run) ->
         rq = image_request
         /\ quote (lit "saas dashboard") = Ok (lit "saas%20dashboard")
         /\ url rq = lit "https://source.unsplash.com/1200x630/?"
                     ++ lit "saas%20dashboard").
Proof.
  split.
  - intros query q tr Hq rq. split.
    + unfold fetch_unsplash_image, bind, lift, send, ret. rewrite Hq. fold rq.
      destruct (net tr Unsplash rq) as [x | st c j]; [reflexivity|].
      destruct (raise_for_status _); reflexivity.
    + apply contains_app_r. destruct q; [reflexivity|].
      apply contains_prefix, startswith_refl.
  - main_shapes.
    1-3: intros rq rs Hin; in_calls Hin; contradiction.
    image_shapes; intros rq rs Hin; in_calls Hin.
    all: destruct Hin as [[= <- _] | []]; repeat split.
Qed.

(** C1, amended. The generator tries one backend only.  When backend A is
    configured, backend B is never called: the result of A is returned, and
    if A's call raises, the failure is printed and the local template is
    returned.  Backend B is tried only when A is not configured: without
    B's credential the local template is returned at once, and if B's call
    raises, the failure is printed and the local template is returned. *)
Theorem generate_content_tiers (tr : trace) :
  let prompt := generation_prompt cfg in
  let local := PStr (fallback_generate cfg prompt) in
  let logged x :=
    [Print [PS (lit "Model call failed:"); PE x];
     Print [PS (lit "Using fallback generator.")]] in
  (is_set (OPENAI_KEY cfg) = true ->
   calls_at HF (snd (generate_content repr_container cfg net tr)) = calls_at HF tr
   /\ (forall v tr1,
          call_openai cfg net prompt tr = (Ok v, tr1) ->
          generate_content repr_container cfg net tr = (Ok v, tr1))
   /\ (forall x tr1,
          call_openai cfg net prompt tr = (Raise x, tr1) ->
          generate_content repr_container cfg net tr = (Ok local, tr1 ++ logged x)))
  /\ (is_set (OPENAI_KEY cfg) = false ->
      calls_at OpenAI (snd (generate_content repr_container cfg net tr))
      = calls_at OpenAI tr
      /\ (is_set (HF_TOKEN cfg) = false ->
          generate_content repr_container cfg net tr = (Ok local, tr))
      /\ (forall v tr1,
             call_hf repr_container cfg net prompt tr = (Ok v, tr1) ->
             generate_content repr_container cfg net tr = (Ok v, tr1))
      /\ (forall x tr1,
             call_hf repr_container cfg net prompt tr = (Raise x, tr1) ->
             generate_content repr_container cfg net tr
             = (Ok local, tr1 ++ logged x))).
Proof.
  intros prompt local logged.
  assert (Hg : forall m : io pyval,
             (if is_set (OPENAI_KEY cfg)
              then call_openai cfg net prompt
              else call_hf repr_container cfg net prompt) = m ->
             (forall v tr1, m tr = (Ok v, tr1) ->
                            generate_content repr_container cfg net tr = (Ok v, tr1))
             /\ (forall x tr1, m tr = (Raise x, tr1) ->
                               generate_content repr_container cfg net tr
                               = (Ok local, tr1 ++ logged x))).
  { intros m Hm. unfold generate_content, try_except. fold prompt. rewrite Hm.
    split; intros ? tr1 ->; [reflexivity|].
    unfold bind, print, ret. rewrite <- app_assoc. reflexivity. }
  split; intros Hset; rewrite Hset in Hg.
  - destruct (Hg _ eq_refl) as [Hok Hraise]. repeat split; auto.
    destruct (call_openai_runs cfg net prompt tr) as (r & evs & E & Hevs & _).
    destruct r as [v | x].
    + rewrite (Hok _ _ E). cbn [snd]. rewrite calls_at_app.
      rewrite (calls_at_only _ HF evs Hevs) by (cbn; intuition discriminate).
      subst logged; cbn [calls_at]; now rewrite ?app_nil_r.
    + rewrite (Hraise _ _ E). cbn [snd]. rewrite !calls_at_app.
      rewrite (calls_at_only _ HF evs Hevs) by (cbn; intuition discriminate).
      subst logged; cbn [calls_at]; now rewrite ?app_nil_r.
  - destruct (Hg _ eq_refl) as [Hok Hraise]. repeat split; auto.
    + destruct (call_hf_runs repr_container cfg net prompt tr)
        as (r & evs & E & Hevs & _).
      destruct r as [v | x].
      * rewrite (Hok _ _ E). cbn [snd]. rewrite calls_at_app.
        rewrite (calls_at_only _ OpenAI evs Hevs) by (cbn; intuition discriminate).
        subst logged; cbn [calls_at]; now rewrite ?app_nil_r.
      * rewrite (Hraise _ _ E). cbn [snd]. rewrite !calls_at_app.
        rewrite (calls_at_only _ OpenAI evs Hevs) by (cbn; intuition discriminate).
        subst logged; cbn [calls_at]; now rewrite ?app_nil_r.
    + intros Hhf. apply Hok. unfold call_hf. rewrite Hhf. reflexivity.
Qed.

End Claims.

(** ** Concrete runs *)

Definition sample_repr (v : pyval) : pystr := lit "{...}".

Definition both_keys_config : config :=
  {| WP_URL := WP_URL default_config;
     WP_USER := WP_USER default_config;
     WP_APP_PASS := WP_APP_PASS default_config;
     AFF_LINK := AFF_LINK default_config;
     OPENAI_KEY := Some (lit "sk-test");
     HF_TOKEN := Some (lit "hf-test");
     PRIMARY_KEYWORD := PRIMARY_KEYWORD default_config |}.

(** Every call times out. *)
Definition net_down : network :=
  fun _ _ _ => Failed (RequestException (lit "timed out")).

(** The blog answers the post creation with a server error. *)
Definition net_publish_500 : network :=
  fun _ s _ =>
    match s with
    | WpPost => Http 500 [] None
    | _ => Http 200 [] (Some (PDict []))
    end.

(** The post is created with identifier 42, the image service answers 404. *)
Definition net_image_404 : network :=
  fun _ s _ =>
    match s with
    | WpPost => Http 201 [] (Some (PDict [(lit "id", PInt 42)]))
    | Unsplash => Http 404 [] None
    | _ => Http 200 [] (Some (PDict []))
    end.

(** Everything succeeds: post 42, media 7. *)
Definition net_ok : network :=
  fun _ s _ =>
    match s with
    | WpPost => Http 201 [] (Some (PDict [(lit "id", PInt 42)]))
    | Unsplash => Http 200 [255; 216; 255] None
    | WpMedia => Http 201 [] (Some (PDict [(lit "id", PInt 7)]))
    | _ => Http 200 [] (Some (PDict []))
    end.

(** As [net_ok], but the answer to the post creation has no "id". *)
Definition net_no_post_id : network :=
  fun _ s _ =>
    match s with
    | WpPost => Http 201 [] (Some (PDict [(lit "status", PStr (lit "draft"))]))
    | Unsplash => Http 200 [255; 216; 255] None
    | WpMedia => Http 201 [] (Some (PDict [(lit "id", PInt 7)]))
    | _ => Http 200 [] (Some (PDict []))
    end.

(** The post request of a run under [default_config], where the text comes
    from the local template. *)
Definition default_post_request : request :=
  let '(title, html, excerpt) :=
    format_post default_config
      (fallback_generate default_config (generation_prompt default_config)) in
  post_request default_config (lit "dXNlcjpwYXNz") title html excerpt.

Definition default_media_request : request :=
  media_request default_config (lit "dXNlcjpwYXNz") [255; 216; 255].

(** The claim C1 for one configuration and environment: when backend A is
    configured and its call raises, backend B is called. *)
Definition secondary_tried_after_primary
           (repr : pyval -> pystr) (cfg : config) (net : network) : Prop :=
  is_set (OPENAI_KEY cfg) = true ->
  forall x tr1,
    call_openai cfg net (generation_prompt cfg) [] = (Raise x, tr1) ->
    calls_at HF (snd (generate_content repr cfg net [])) <> [].

(** The claim C2 for one run: the image request is addressed by the quoted
    keyword. *)
Definition image_addressed_by_keyword
           (repr : pyval -> pystr) (cfg : config) (net : network) : Prop :=
  forall rq rs,
    In (rq, rs) (calls_at Unsplash (snd (main repr cfg net []))) ->
    exists q, quote (PRIMARY_KEYWORD cfg) = Ok q /\ contains q (url rq) = true.

Example run_all_ok :
  main sample_repr default_config net_ok []
  = (Ok tt,
     [GENERATING;
      Call WpPost default_post_request
           (Http 201 [] (Some (PDict [(lit "id", PInt 42)])));
      Print [PS (lit "Draft created. Post ID:"); PV (PInt 42)];
      Call Unsplash image_request (Http 200 [255; 216; 255] None);
      Call WpMedia default_media_request
           (Http 201 [] (Some (PDict [(lit "id", PInt 7)])));
      Call WpUpdate
           {| method := POST;
              url := lit "https://blog.example/wp-json/wp/v2/posts/42";
              headers := [(lit "Authorization", lit "Basic dXNlcjpwYXNz");
                          (lit "Content-Type", lit "application/json")];
              body := JsonBody (PDict [(lit "featured_media", PInt 7)]);
              timeout := Some 30 |}
           (Http 200 [] (Some (PDict [])));
      Print [PS (lit "Featured image set.")]]).
Proof. vm_compute. reflexivity. Qed.

(** Without model credentials the posted draft is the template: its title,
    its body as generated (it has markup and the marker already), and the
    first 140 characters as excerpt. *)
Example default_post_payload :
  body default_post_request
  = JsonBody
      (PDict
         [(lit "title",
           PStr (lit "best marketing automation tools 2025 " ++ DASH
                 ++ lit " A practical guide"));
          (lit "content",
           PStr (lit "<h2>Introduction</h2><p>This article provides a concise overview for 'best marketing automation tools 2025'.</p><h2>Top picks</h2><ul><li>Tool A "
                 ++ DASH ++ lit " Good for small teams</li><li>Tool B " ++ DASH
                 ++ lit " Good for enterprise</li></ul><p>For more details and an affiliate offer, visit https://affiliate.example/?ref=you</p>"
                 ++ [10] ++ lit "<!-- AUTO_GENERATED -->"));
          (lit "excerpt",
           PStr (lit "<h2>Introduction</h2><p>This article provides a concise overview for 'best marketing automation tools 2025'.</p><h2>Top picks</h2><ul><li>To"));
          (lit "status", PStr (lit "draft"))]).
Proof. vm_compute. reflexivity. Qed.

(** The scenario of a failing publish call. *)
Example run_publish_500 :
  main sample_repr default_config net_publish_500 []
  = (Ok tt,
     [GENERATING;
      Call WpPost default_post_request (Http 500 [] None);
      Print [PS (lit "Failed to post:"); PE (HTTPError 500)]]).
Proof. vm_compute. reflexivity. Qed.

(** The scenario of a created post 42 and a failing image fetch. *)
Example run_image_404 :
  main sample_repr default_config net_image_404 []
  = (Ok tt,
     [GENERATING;
      Call WpPost default_post_request
           (Http 201 [] (Some (PDict [(lit "id", PInt 42)])));
      Print [PS (lit "Draft created. Post ID:"); PV (PInt 42)];
      Call Unsplash image_request (Http 404 [] None);
      Print [PS (lit "Image attach failed:"); PE (HTTPError 404)]]).
Proof. vm_compute. reflexivity. Qed.

(** Both model credentials set, backend A down: backend B is not called. *)
Example run_generate_primary_down :
  generate_content sample_repr both_keys_config net_down []
  = (Ok (PStr (fallback_generate both_keys_config
                 (generation_prompt both_keys_config))),
     [Call OpenAI
           {| method := POST;
              url := lit "https://api.openai.com/v1/chat/completions";
              headers := [(lit "Authorization", lit "Bearer sk-test");
                          (lit "Content-Type", lit "application/json")];
              body := JsonBody
                (PDict
                   [(lit "model", PStr (lit "gpt-4o-mini"));
                    (lit "messages",
                     PList [PDict [(lit "role", PStr (lit "system"));
                                   (lit "content",
                                    PStr (lit "You are an expert B2B SaaS writer."))];
                            PDict [(lit "role", PStr (lit "user"));
                                   (lit "content",
                                    PStr (generation_prompt both_keys_config))]]);
                    (lit "temperature", PFloat (lit "0.2"));
                    (lit "max_tokens", PInt 1600)]);
              timeout := Some 120 |}
           (Failed (RequestException (lit "timed out")));
      Print [PS (lit "Model call failed:");
             PE (RequestException (lit "timed out"))];
      Print [PS (lit "Using fallback generator.")]]).
Proof. vm_compute. reflexivity. Qed.

(** A success status whose JSON is not an object: [res.get] raises inside
    the outer [try], so the run prints a failure although the call went
    through, and stops. *)
Definition net_post_answer_list : network :=
  fun _ s _ =>
    match s with
    | WpPost => Http 201 [] (Some (PList []))
    | _ => Http 200 [] (Some (PDict []))
    end.

Example run_post_answer_not_object :
  main sample_repr default_config net_post_answer_list []
  = (Ok tt,
     [GENERATING;
      Call WpPost default_post_request (Http 201 [] (Some (PList [])));
      Print [PS (lit "Failed to post:"); PE AttributeError]]).
Proof. vm_compute. reflexivity. Qed.

(** Backend A answers with a null content: the generated value is not a
    string, and [txt.splitlines()] raises out of [main]. *)
Definition net_null_content : network :=
  fun _ s _ =>
    match s with
    | OpenAI =>
        Http 200 []
          (Some (PDict
                   [(lit "choices",
                     PList [PDict [(lit "message",
                                    PDict [(lit "content", PNone)])]])]))
    | _ => Http 200 [] (Some (PDict []))
    end.

Example run_text_not_a_string :
  fst (main sample_repr both_keys_config net_null_content []) = Raise AttributeError
  /\ calls_at WpPost (snd (main sample_repr both_keys_config net_null_content []))
     = [].
Proof. split; vm_compute; reflexivity. Qed.

(** ** Counterexamples and instances *)

(** C1, as stated, fails: with both credentials set and backend A down, the
    generator goes to the local template without calling backend B. *)
Lemma primary_failure_skips_secondary :
  ~ secondary_tried_after_primary sample_repr both_keys_config net_down.
Proof.
  intros H.
  refine (H eq_refl (RequestException (lit "timed out")) _ _ _).
  - vm_compute. reflexivity.
  - vm_compute. reflexivity.
Qed.

Lemma generate_content_tiers_witness :
  is_set (OPENAI_KEY both_keys_config) = true
  /\ calls_at HF (snd (generate_content sample_repr both_keys_config net_down []))
     = []
  /\ fst (generate_content sample_repr both_keys_config net_down [])
     = Ok (PStr (fallback_generate both_keys_config
                   (generation_prompt both_keys_config))).
Proof.
  destruct (generate_content_tiers sample_repr both_keys_config net_down [])
    as [H _].
  destruct (H eq_refl) as (Hhf & _ & Hraise).
  split; [reflexivity|]. split; [exact Hhf|].
  erewrite Hraise; [reflexivity|].
  vm_compute. reflexivity.
Defined.

(** C2, as stated, fails: under the default keyword the image request asks
    for "saas dashboard", and its URL does not hold the quoted keyword. *)
Lemma image_not_addressed_by_keyword :
  ~ image_addressed_by_keyword sample_repr default_config net_ok.
Proof.
  intros H.
  destruct (H image_request (Http 200 [255; 216; 255] None)) as (q & Hq & Hc).
  - vm_compute. left. reflexivity.
  - vm_compute in Hq. injection Hq as <-. vm_compute in Hc. discriminate.
Qed.

Lemma image_url_holds_quoted_query_witness :
  quote (lit "blue sky") = Ok (lit "blue%20sky")
  /\ contains (lit "blue%20sky")
              (lit "https://source.unsplash.com/1200x630/?" ++ lit "blue%20sky")
     = true
  /\ In (image_request, Http 200 [255; 216; 255] None)
        (calls_at Unsplash (snd (main sample_repr default_config net_ok [])))
  /\ url image_request
     = lit "https://source.unsplash.com/1200x630/?" ++ lit "saas%20dashboard".
Proof.
  destruct (image_url_holds_quoted_query sample_repr default_config net_ok)
    as [Hfetch Hmain].
  split; [reflexivity|].
  split; [exact (proj2 (Hfetch (lit "blue sky") (lit "blue%20sky") [] eq_refl))|].
  assert (Hin : In (image_request, Http 200 [255; 216; 255] None)
                   (calls_at Unsplash (snd (main sample_repr default_config net_ok []))))
    by (vm_compute; left; reflexivity).
  split; [exact Hin|].
  exact (proj2 (proj2 (Hmain _ _ Hin))).
Defined.



Lemma posted_body_has_marker_witness :
  In (default_post_request, Http 201 [] (Some (PDict [(lit "id", PInt 42)])))
     (calls_at WpPost (snd (main sample_repr default_config net_ok [])))
  /\ exists txt title html excerpt,
       fst (generate_content sample_repr default_config net_ok [GENERATING])
       = Ok (PStr txt)
       /\ format_post default_config txt = (title, html, excerpt)
       /\ body default_post_request
          = JsonBody (PDict [(lit "title", PStr title);
                             (lit "content", PStr html);
                             (lit "excerpt", PStr excerpt);
                             (lit "status", PStr (lit "draft"))])
       /\ contains MARKER html = true.
Proof.
  assert (Hin : In (default_post_request,
                    Http 201 [] (Some (PDict [(lit "id", PInt 42)])))
                   (calls_at WpPost (snd (main sample_repr default_config net_ok []))))
    by (vm_compute; left; reflexivity).
  split; [exact Hin|].
  exact (posted_body_has_marker sample_repr default_config net_ok _ _ Hin).
Defined.

Lemma featured_media_needs_both_ids_witness :
  In (default_post_request,
      Http 201 [] (Some (PDict [(lit "status", PStr (lit "draft"))])))
     (calls_at WpPost (snd (main sample_repr default_config net_no_post_id [])))
  /\ In (default_media_request, Http 201 [] (Some (PDict [(lit "id", PInt 7)])))
        (calls_at WpMedia (snd (main sample_repr default_config net_no_post_id [])))
  /\ truthy (id_of [(lit "status", PStr (lit "draft"))])
     && truthy (id_of [(lit "id", PInt 7)]) = false
  /\ fst (main sample_repr default_config net_no_post_id []) = Ok tt
  /\ calls_at WpUpdate (snd (main sample_repr default_config net_no_post_id [])) = [].
Proof.
  assert (Hp : In (default_post_request,
                   Http 201 [] (Some (PDict [(lit "status", PStr (lit "draft"))])))
                  (calls_at WpPost
                     (snd (main sample_repr default_config net_no_post_id []))))
    by (vm_compute; left; reflexivity).
  assert (Hm : In (default_media_request,
                   Http 201 [] (Some (PDict [(lit "id", PInt 7)])))
                  (calls_at WpMedia
                     (snd (main sample_repr default_config net_no_post_id []))))
    by (vm_compute; left; reflexivity).
  destruct (featured_media_needs_both_ids sample_repr default_config net_no_post_id)
    as [_ Hskip].
  destruct (Hskip _ _ _ _ _ _ _ _ Hp eq_refl Hm eq_refl eq_refl) as (Hout & Hu & _).
  repeat split; assumption.
Defined.

(** ** More on the string helpers *)

Definition all_space (s : pystr) : bool := forallb is_space s.

Section Stripping.

Lemma lstrip_nil_iff (s : pystr) : lstrip s = [] <-> all_space s = true.
Proof.
  induction s as [|c s IH]; cbn; [tauto|].
  destruct (is_space c); cbn; [exact IH|]. split; discriminate.
Qed.

Lemma lstrip_head (s t : pystr) (c : N) : lstrip s = c :: t -> is_space c = false.
Proof.
  induction s as [|d s IH]; cbn; [discriminate|].
  destruct (is_space d) eqn:E; [exact IH|]. now intros [= <- _].
Qed.

Lemma lstrip_fixed (c : N) (t : pystr) : is_space c = false -> lstrip (c :: t) = c :: t.
Proof. cbn. now intros ->. Qed.

(** [lstrip] drops a whitespace prefix. *)
Lemma lstrip_suffix (s : pystr) :
  exists p, s = p ++ lstrip s /\ all_space p = true.
Proof.
  induction s as [|c s (p & E & H)]; [now exists []|].
  cbn. destruct (is_space c) eqn:Ec.
  - exists (c :: p). split; [cbn [app]; now rewrite <- E|].
    unfold all_space in *. cbn. now rewrite Ec, H.
  - now exists [].
Qed.

Lemma all_space_rev (s : pystr) : all_space (rev s) = all_space s.
Proof.
  unfold all_space. induction s as [|c s IH]; [reflexivity|].
  cbn. rewrite forallb_app, IH. cbn. rewrite andb_true_r. apply andb_comm.
Qed.

Lemma all_space_app (a b : pystr) : all_space (a ++ b) = all_space a && all_space b.
Proof. apply forallb_app. Qed.

Lemma rev_nil_iff (s : pystr) : rev s = [] <-> s = [].
Proof.
  split; [|now intros ->].
  intros H. apply (f_equal (@rev N)) in H. now rewrite rev_involutive in H.
Qed.

(** [strip] removes a whitespace prefix and a whitespace suffix. *)
Lemma strip_decompose (s : pystr) :
  exists p q, s = p ++ strip s ++ q /\ lstrip s = strip s ++ q
              /\ all_space p = true /\ all_space q = true.
Proof.
  destruct (lstrip_suffix s) as (p & Es & Hp).
  destruct (lstrip_suffix (rev (lstrip s))) as (q & Er & Hq).
  exists p, (rev q).
  assert (Hu : lstrip s = strip s ++ rev q).
  { unfold strip, rstrip. rewrite <- rev_app_distr, <- Er. now rewrite rev_involutive. }
  repeat split; auto.
  - now rewrite <- Hu.
  - now rewrite all_space_rev.
Qed.

Lemma strip_nil_iff (s : pystr) : strip s = [] <-> all_space s = true.
Proof.
  split.
  - intros H. destruct (strip_decompose s) as (p & q & E & _ & Hp & Hq).
    rewrite E, H, !all_space_app, Hp, Hq. reflexivity.
  - intros H. apply lstrip_nil_iff in H. unfold strip. now rewrite H.
Qed.

Lemma strip_head (s t : pystr) (c : N) : strip s = c :: t -> is_space c = false.
Proof.
  intros H. destruct (strip_decompose s) as (p & q & _ & Hu & _).
  rewrite H in Hu. exact (lstrip_head _ _ _ Hu).
Qed.

Lemma strip_last (s : pystr) (d : N) :
  strip s <> [] -> is_space (last (strip s) d) = false.
Proof.
  unfold strip, rstrip. intros H.
  destruct (lstrip (rev (lstrip s))) as [|c w] eqn:E; [now elim H|].
  cbn [rev]. rewrite last_last. exact (lstrip_head _ _ _ E).
Qed.

Lemma forallb_lstrip (P : N -> bool) (s : pystr) :
  forallb P s = true -> forallb P (lstrip s) = true.
Proof.
  induction s as [|c s IH]; cbn; [auto|].
  intros H. apply andb_true_iff in H as [Hc Hs].
  destruct (is_space c); [auto|]. cbn. now rewrite Hc, Hs.
Qed.

Lemma forallb_rev (P : N -> bool) (s : pystr) : forallb P (rev s) = forallb P s.
Proof.
  induction s as [|c s IH]; [reflexivity|].
  cbn. rewrite forallb_app, IH. cbn. rewrite andb_true_r. apply andb_comm.
Qed.

Lemma forallb_strip (P : N -> bool) (s : pystr) :
  forallb P s = true -> forallb P (strip s) = true.
Proof.
  intros H. unfold strip, rstrip.
  rewrite forallb_rev. apply forallb_lstrip. rewrite forallb_rev.
  now apply forallb_lstrip.
Qed.

(** A text that starts and ends with a character that is no whitespace is
    its own [strip]. *)
Lemma strip_fixed (s : pystr) (d : N) :
  s <> [] -> is_space (hd d s) = false -> is_space (last s d) = false ->
  strip s = s.
Proof.
  intros Hn Hh Hl. destruct s as [|c t]; [now elim Hn|].
  unfold strip, rstrip. cbn [hd] in Hh. rewrite (lstrip_fixed c t Hh).
  destruct (rev (c :: t)) as [|e r] eqn:E.
  - destruct (app_eq_nil _ _ E) as [_ ?]. discriminate.
  - assert (He : e = last (c :: t) d).
    { rewrite <- (rev_involutive (c :: t)), E. cbn [rev]. now rewrite last_last. }
    rewrite lstrip_fixed by (now rewrite He).
    rewrite <- E. apply rev_involutive.
Qed.

End Stripping.

(** ** More on the formatter *)

(** A line as the formatter keeps it: not empty, without a line boundary,
    with no whitespace at either end. *)
Definition clean_line (l : pystr) : Prop :=
  l <> [] /\ no_linebreak l = true
  /\ is_space (hd 0 l) = false /\ is_space (last l 0) = false.

Section FormatterFacts.

Lemma splitlines_go_no_linebreak (s acc : pystr) (b : bool) :
  no_linebreak acc = true ->
  Forall (fun l => no_linebreak l = true) (splitlines_go b acc s).
Proof.
  revert acc b; induction s as [|c s IH]; intros acc b Hacc.
  - cbn. destruct acc; constructor; [|constructor].
    unfold no_linebreak in *. now rewrite forallb_rev.
  - cbn [splitlines_go].
    destruct (b && (c =? 10)); [now apply IH|].
    destruct (is_linebreak c) eqn:E.
    + constructor; [|now apply IH].
      unfold no_linebreak in *. now rewrite forallb_rev.
    + apply IH. unfold no_linebreak in *. cbn. now rewrite E, Hacc.
Qed.

Lemma splitlines_go_all_space (s acc : pystr) (b : bool) :
  all_space acc = true -> all_space s = true ->
  Forall (fun l => all_space l = true) (splitlines_go b acc s).
Proof.
  revert acc b; induction s as [|c s IH]; intros acc b Hacc Hs.
  - cbn. destruct acc; constructor; [|constructor]. now rewrite all_space_rev.
  - unfold all_space in Hs. cbn in Hs. apply andb_true_iff in Hs as [Hc Hs].
    cbn [splitlines_go].
    destruct (b && (c =? 10)); [now apply IH|].
    destruct (is_linebreak c).
    + constructor; [now rewrite all_space_rev | now apply IH].
    + apply IH; [|exact Hs]. unfold all_space in *. cbn. now rewrite Hc, Hacc.
Qed.

(** Every line the formatter keeps is clean. *)
Lemma stripped_lines_clean (txt : pystr) : Forall clean_line (stripped_lines txt).
Proof.
  unfold stripped_lines.
  pose proof (splitlines_go_no_linebreak txt [] false eq_refl) as H.
  fold (splitlines txt) in H.
  induction H as [|l ls Hl _ IH]; [constructor|].
  cbn [filter]. destruct (strip l) as [|c t] eqn:E; [exact IH|].
  cbn [map]. constructor; [|exact IH].
  rewrite E. repeat split.
  - discriminate.
  - rewrite <- E. now apply forallb_strip.
  - exact (strip_head _ _ _ E).
  - rewrite <- E. apply strip_last. rewrite E. discriminate.
Qed.

Lemma stripped_lines_blank (txt : pystr) :
  all_space txt = true -> stripped_lines txt = [].
Proof.
  intros Hs. unfold stripped_lines.
  pose proof (splitlines_go_all_space txt [] false eq_refl Hs) as H.
  fold (splitlines txt) in H.
  induction H as [|l ls Hl _ IH]; [reflexivity|].
  cbn [filter]. apply strip_nil_iff in Hl. now rewrite Hl.
Qed.

(** No occurrence of [n] starts inside a text that lacks [n]'s first
    character. *)
Lemma contains_skip (n l r : pystr) (a : N) :
  forallb (fun c => negb (a =? c)) l = true ->
  contains (a :: n) (l ++ r) = contains (a :: n) r.
Proof.
  induction l as [|c l IH]; [reflexivity|].
  cbn [forallb]. intros H. apply andb_true_iff in H as [Hc Hl].
  cbn [app contains startswith].
  apply negb_true_iff in Hc. rewrite Hc. cbn [andb orb]. auto.
Qed.

Lemma no_linebreak_no_lf (l : pystr) :
  no_linebreak l = true -> forallb (fun c => negb (10 =? c)) l = true.
Proof.
  unfold no_linebreak. induction l as [|c l IH]; [reflexivity|].
  cbn [forallb]. intros H. apply andb_true_iff in H as [Hc Hl].
  rewrite (IH Hl), andb_true_r.
  destruct (10 =? c) eqn:E; [|reflexivity].
  apply N.eqb_eq in E. subst c. discriminate.
Qed.

(** Clean lines joined by single line feeds hold no empty line. *)
Lemma join_clean (lines : list pystr) :
  Forall clean_line lines ->
  contains [10; 10] (join [10] lines) = false
  /\ startswith [10] (join [10] lines) = false
  /\ (lines <> [] -> join [10] lines <> []
                     /\ is_space (hd 0 (join [10] lines)) = false).
Proof.
  induction 1 as [|l ls (Hn & Hlb & Hh & Hl) _ (IH1 & IH2 & IH3)].
  - cbn. repeat split; auto; intros H; now elim H.
  - pose proof (no_linebreak_no_lf l Hlb) as Hlf.
    assert (Hj : join [10] (l :: ls) = l ++ match ls with
                                             | [] => []
                                             | _ => 10 :: join [10] ls
                                             end).
    { cbn [join]. destruct ls; [now rewrite app_nil_r | reflexivity]. }
    rewrite Hj. destruct l as [|c l]; [now elim Hn|].
    split; [|split].
    + rewrite (contains_skip [10] (c :: l) _ 10 Hlf).
      destruct ls; [reflexivity|].
      cbn [contains startswith]. rewrite N.eqb_refl. cbn [andb].
      change (startswith [10] (join [10] (p :: ls))
              || contains [10; 10] (join [10] (p :: ls)) = false).
      now rewrite IH1, IH2.
    + cbn [forallb] in Hlf. apply andb_true_iff in Hlf as [Hc _].
      apply negb_true_iff in Hc. cbn [app startswith]. now rewrite Hc.
    + intros _. split; [discriminate | exact Hh].
Qed.

Lemma body_of_clean (lines : list pystr) :
  Forall clean_line lines ->
  contains [10; 10] (body_of lines) = false
  /\ (body_of lines <> [] -> is_space (hd 0 (body_of lines)) = false).
Proof.
  intros H. unfold body_of.
  destruct (1 <? List.length lines)%nat; [|split; [reflexivity | intros E; now elim E]].
  assert (Ht : Forall clean_line (tl lines)) by (destruct H; [constructor | assumption]).
  destruct (join_clean _ Ht) as (H1 & _ & H3).
  split; [exact H1|].
  intros Hb. apply H3. intros E. rewrite E in Hb. now elim Hb.
Qed.

(** Without a separator in it, a text is the only piece of its split. *)
Lemma split_go_no_sep (sep s acc : pystr) :
  contains sep s = false -> split_go sep 0 acc s = [rev acc ++ s].
Proof.
  revert acc; induction s as [|c s IH]; intros acc H.
  - cbn. now rewrite app_nil_r.
  - cbn [contains] in H. apply orb_false_iff in H as [H1 H2].
    cbn [split_go]. rewrite H1, (IH _ H2). cbn [rev]. now rewrite <- app_assoc.
Qed.

End FormatterFacts.

Lemma is_linebreak_is_space (c : N) : is_linebreak c = true -> is_space c = true.
Proof.
  unfold is_linebreak, is_space. intros H.
  repeat (apply orb_true_iff in H as [H | H]);
    repeat match goal with
           | H : _ && _ = true |- _ => apply andb_true_iff in H as [? ?]
           | H : (_ <=? _) = true |- _ => apply N.leb_le in H
           | H : (_ =? _) = true |- _ => apply N.eqb_eq in H; subst
           end;
    try reflexivity.
  - assert (E : (9 <=? c) && (c <=? 13) = true)
      by (apply andb_true_iff; split; apply N.leb_le; lia).
    now rewrite E.
  - assert (E : (28 <=? c) && (c <=? 32) = true)
      by (apply andb_true_iff; split; apply N.leb_le; lia).
    rewrite E. now rewrite orb_true_r.
Qed.

Lemma splitlines_go_all_space_inv (s acc : pystr) (b : bool) :
  Forall (fun l => all_space l = true) (splitlines_go b acc s) ->
  all_space s = true /\ (b = false -> all_space acc = true).
Proof.
  revert acc b; induction s as [|c s IH]; intros acc b H.
  - split; [reflexivity|]. intros _. cbn [splitlines_go] in H.
    destruct acc as [|a acc]; [reflexivity|].
    inversion_clear H as [|? ? Ha _].
    change (rev acc ++ [a]) with (rev (a :: acc)) in Ha.
    now rewrite all_space_rev in Ha.
  - cbn [splitlines_go] in H.
    destruct b; cbn [andb] in H.
    + destruct (c =? 10) eqn:E10.
      * apply N.eqb_eq in E10; subst c.
        destruct (IH _ _ H) as [Hs _]. split; [|discriminate].
        unfold all_space in *. cbn [forallb]. now rewrite Hs.
      * split; [|discriminate].
        destruct (is_linebreak c) eqn:E.
        -- inversion_clear H as [|? ? _ Ht]. destruct (IH _ _ Ht) as [Hs _].
           unfold all_space in *. cbn [forallb].
           now rewrite (is_linebreak_is_space c E), Hs.
        -- destruct (IH _ _ H) as [Hs Hacc]. specialize (Hacc eq_refl).
           unfold all_space in *. cbn [forallb] in *.
           apply andb_true_iff in Hacc as [Hc _]. now rewrite Hc, Hs.
    + destruct (is_linebreak c) eqn:E.
      * inversion_clear H as [|? ? Ha Ht]. destruct (IH _ _ Ht) as [Hs _].
        rewrite all_space_rev in Ha. split; [|auto].
        unfold all_space in *. cbn [forallb].
        now rewrite (is_linebreak_is_space c E), Hs.
      * destruct (IH _ _ H) as [Hs Hacc]. specialize (Hacc eq_refl).
        unfold all_space in *. cbn [forallb] in *.
        apply andb_true_iff in Hacc as [Hc Hacc]. split; [|auto].
        now rewrite Hc, Hs.
Qed.

(** The formatter keeps no line exactly when the text is whitespace only. *)
Lemma stripped_lines_nil_iff (txt : pystr) :
  stripped_lines txt = [] <-> all_space txt = true.
Proof.
  split; [|apply stripped_lines_blank].
  intros H. apply (splitlines_go_all_space_inv txt [] false).
  fold (splitlines txt). unfold stripped_lines in H.
  induction (splitlines txt) as [|l ls IH]; [constructor|].
  cbn [filter] in H. destruct (strip l) eqn:E; [|discriminate].
  constructor; [now apply strip_nil_iff | now apply IH].
Qed.

(** Empty input.  For a text that is empty or whitespace only, the formatter
    gives the configured keyword as title, a body that is just the marker
    after a blank line, and an empty excerpt. *)
Theorem format_post_blank_text (cfg : config) (txt : pystr) :
  all_space txt = true ->
  format_post cfg txt
  = (PRIMARY_KEYWORD cfg, [10; 10] ++ lit "<!-- AUTO_GENERATED -->", []).
Proof.
  intros H. unfold format_post. now rewrite (stripped_lines_blank txt H).
Qed.

Lemma format_post_blank_text_witness :
  all_space ([32; 10; 9; 13; 10]) = true
  /\ format_post default_config [32; 10; 9; 13; 10]
     = (lit "best marketing automation tools 2025",
        [10; 10] ++ lit "<!-- AUTO_GENERATED -->", []).
Proof.
  split; [reflexivity|].
  apply (format_post_blank_text default_config [32; 10; 9; 13; 10]).
  reflexivity.
Defined.

(** For a text with anything but whitespace in it, the title is a line of
    the text with the whitespace at its ends removed: it is not empty, has
    no line boundary, and neither starts nor ends with whitespace. *)
Theorem format_post_title_clean (cfg : config) (txt : pystr) :
  all_space txt = false ->
  let '(title, _, _) := format_post cfg txt in
  clean_line title /\ exists l, In l (splitlines txt) /\ title = strip l.
Proof.
  intros H. unfold format_post. cbv zeta.
  pose proof (stripped_lines_clean txt) as Hc.
  assert (Hin : forall t, In t (stripped_lines txt) ->
                          exists l, In l (splitlines txt) /\ t = strip l).
  { intros t Ht. unfold stripped_lines in Ht. apply in_map_iff in Ht as (l & E & Hl).
    apply filter_In in Hl as [Hl _]. now exists l. }
  destruct (stripped_lines txt) as [|t ts] eqn:E.
  - apply stripped_lines_nil_iff in E. congruence.
  - cbn [title_of]. split; [now inversion Hc | apply Hin; now left].
Qed.

Lemma format_post_title_clean_witness :
  all_space ([10; 32] ++ lit " My Title " ++ [13; 10] ++ lit "text") = false
  /\ clean_line (lit "My Title")
  /\ fst (fst (format_post default_config
                 ([10; 32] ++ lit " My Title " ++ [13; 10] ++ lit "text")))
     = lit "My Title".
Proof.
  split; [reflexivity|].
  pose proof (format_post_title_clean default_config
                ([10; 32] ++ lit " My Title " ++ [13; 10] ++ lit "text") eq_refl) as H.
  split; [exact (proj1 H) | reflexivity].
Defined.

(** The body the formatter assembles from the lines never holds an empty
    line, and it does not start with whitespace. *)
Theorem body_has_no_blank_line (txt : pystr) :
  let body := body_of (stripped_lines txt) in
  contains [10; 10] body = false
  /\ split [10; 10] body = [body]
  /\ (body <> [] -> is_space (hd 0 body) = false).
Proof.
  cbv zeta.
  destruct (body_of_clean _ (stripped_lines_clean txt)) as [H1 H2].
  repeat split; auto.
  unfold split. now rewrite split_go_no_sep.
Qed.

(** Hence the wrapping step never makes more than one paragraph: a plain
    body, with neither [<p>] nor [<h] in it, is put whole between one [<p>]
    and one [</p>]. *)
Theorem plain_body_is_one_paragraph (txt : pystr) :
  let body := body_of (stripped_lines txt) in
  contains (lit "<p>") body = false ->
  contains (lit "<h") body = false ->
  body <> [] ->
  wrap_paragraphs body = lit "<p>" ++ body ++ lit "</p>".
Proof.
  cbv zeta. intros Hp Hh Hn.
  destruct (body_of_clean _ (stripped_lines_clean txt)) as [Hc Hd].
  assert (Hs : split [10; 10] (body_of (stripped_lines txt))
               = [body_of (stripped_lines txt)])
    by (unfold split; now rewrite split_go_no_sep).
  unfold wrap_paragraphs. rewrite Hp, Hh, Hs. cbn [negb andb filter].
  destruct (strip (body_of (stripped_lines txt))) eqn:E; [|reflexivity].
  exfalso. apply strip_nil_iff in E.
  specialize (Hd Hn).
  destruct (body_of (stripped_lines txt)) as [|c t]; [now elim Hn|].
  unfold all_space in E. cbn in E, Hd. rewrite Hd in E. discriminate.
Qed.

Lemma plain_body_is_one_paragraph_witness :
  body_of (stripped_lines (lit "Title" ++ [10] ++ lit "first block" ++ [10; 10; 10]
                           ++ lit "second block"))
  = lit "first block" ++ [10] ++ lit "second block"
  /\ wrap_paragraphs
       (body_of (stripped_lines (lit "Title" ++ [10] ++ lit "first block"
                                 ++ [10; 10; 10] ++ lit "second block")))
     = lit "<p>" ++ lit "first block" ++ [10] ++ lit "second block" ++ lit "</p>".
Proof.
  split; [reflexivity|].
  rewrite (plain_body_is_one_paragraph
             (lit "Title" ++ [10] ++ lit "first block" ++ [10; 10; 10]
              ++ lit "second block"));
    [reflexivity | reflexivity | reflexivity | discriminate].
Defined.

(** The title and the body of the local template. *)
Definition template_title (cfg : config) : pystr :=
  PRIMARY_KEYWORD cfg ++ lit " " ++ DASH ++ lit " A practical guide".

Definition template_body (cfg : config) : pystr :=
  lit "<h2>Introduction</h2><p>This article provides a concise overview for '"
  ++ PRIMARY_KEYWORD cfg ++ tpl_mid ++ AFF_LINK cfg ++ lit "</p>".

Lemma fallback_generate_lines (cfg : config) (prompt : pystr) :
  fallback_generate cfg prompt
  = template_title cfg ++ 10 :: ([] ++ 10 :: (template_body cfg
      ++ 10 :: ([] ++ 10 :: lit "<!-- AUTO_GENERATED -->"))).
Proof.
  rewrite fallback_generate_pieces.
  unfold template_title, template_body, tpl_head, tpl_mid, tpl_tail, MARKER.
  repeat rewrite <- app_assoc. reflexivity.
Qed.

Lemma no_linebreak_app (a b : pystr) :
  no_linebreak (a ++ b) = no_linebreak a && no_linebreak b.
Proof. apply forallb_app. Qed.

Lemma last_app_cons (a b : pystr) (c d : N) : last (a ++ c :: b) d = last (c :: b) d.
Proof.
  induction a as [|x a IH]; [reflexivity|].
  cbn [app]. rewrite <- IH.
  remember (a ++ c :: b) as m eqn:E.
  destruct m; [destruct a; discriminate | reflexivity].
Qed.

(** The template through the formatter.  When the keyword and the link hold
    no line boundary, the formatter gives the template back as it is: the
    title line (stripped), the body followed by a line feed and the marker,
    neither wrapped in a paragraph nor given a second marker, and its first
    140 characters as excerpt. *)
Theorem format_post_of_template (cfg : config) (prompt : pystr) :
  no_linebreak (PRIMARY_KEYWORD cfg) = true ->
  no_linebreak (AFF_LINK cfg) = true ->
  format_post cfg (fallback_generate cfg prompt)
  = (strip (template_title cfg),
     template_body cfg ++ [10] ++ MARKER,
     firstn 140 (template_body cfg ++ [10] ++ MARKER)).
Proof.
  intros Hk Hl.
  assert (Hlines : stripped_lines (fallback_generate cfg prompt)
                   = [strip (template_title cfg); template_body cfg; MARKER]).
  { unfold stripped_lines, splitlines. rewrite fallback_generate_lines.
    rewrite splitlines_go_first
      by (unfold template_title; rewrite no_linebreak_app, Hk; reflexivity).
    rewrite splitlines_go_first by reflexivity.
    rewrite splitlines_go_first
      by (unfold template_body; rewrite !no_linebreak_app, Hk, Hl; reflexivity).
    rewrite splitlines_go_first by reflexivity.
    change (splitlines_go false [] (lit "<!-- AUTO_GENERATED -->")) with [MARKER].
    cbn [rev app].
    assert (Ht : match strip (template_title cfg) with [] => false | _ => true end
                 = true).
    { destruct (strip (template_title cfg)) eqn:E; [|reflexivity].
      apply strip_nil_iff in E. unfold template_title in E.
      rewrite !all_space_app in E. cbn in E.
      rewrite !andb_false_r in E. discriminate. }
    assert (Hb : strip (template_body cfg) = template_body cfg).
    { apply (strip_fixed _ 0).
      - discriminate.
      - reflexivity.
      - unfold template_body.
        rewrite !app_assoc.
        change (lit "</p>") with (60 :: lit "/p>").
        rewrite last_app_cons. reflexivity. }
    assert (Hbn : match strip (template_body cfg) with [] => false | _ => true end
                  = true) by (rewrite Hb; reflexivity).
    assert (H0 : match strip [] with [] => false | _ => true end = false)
      by reflexivity.
    assert (Hm : match strip MARKER with [] => false | _ => true end = true)
      by reflexivity.
    cbn [filter]. rewrite Ht, H0, Hbn, Hm. cbn [map]. rewrite Hb. reflexivity. }
  unfold format_post. rewrite Hlines. cbv zeta.
  cbn [title_of body_of List.length Nat.ltb Nat.leb tl join].
  assert (Hh : contains (lit "<h") (template_body cfg ++ [10] ++ MARKER) = true).
  { apply contains_prefix. reflexivity. }
  assert (Hm : contains MARKER (template_body cfg ++ [10] ++ MARKER) = true).
  { apply contains_app_r, contains_app_r, contains_prefix, startswith_refl. }
  unfold wrap_paragraphs, append_marker. fold MARKER.
  rewrite Hh, andb_false_r, Hm. reflexivity.
Qed.

Lemma format_post_of_template_witness :
  no_linebreak (PRIMARY_KEYWORD default_config) = true
  /\ no_linebreak (AFF_LINK default_config) = true
  /\ format_post default_config (fallback_generate default_config [])
     = (template_title default_config,
        template_body default_config ++ [10] ++ MARKER,
        firstn 140 (template_body default_config ++ [10] ++ MARKER)).
Proof.
  split; [reflexivity|]. split; [reflexivity|].
  rewrite (format_post_of_template default_config [] eq_refl eq_refl).
  reflexivity.
Defined.

(** ** More on the model calls *)

(** [j["choices"][0]["message"]["content"]] *)
Definition openai_path (j : pyval) : result pyval :=
  rbind (getitem j (lit "choices")) (fun c =>
  rbind (getitem0 c) (fun c0 =>
  rbind (getitem c0 (lit "message")) (fun m =>
  getitem m (lit "content")))).

Section ModelCalls.

Variable repr_container : pyval -> pystr.
Variable cfg : config.
Variable net : network.

(** The request [call_openai] sends. *)
Definition openai_request (prompt : pystr) : request :=
  {| method := POST;
     url := lit "https://api.openai.com/v1/chat/completions";
     headers := [(lit "Authorization", lit "Bearer " ++ fmt (OPENAI_KEY cfg));
                 (lit "Content-Type", lit "application/json")];
     body := JsonBody
       (PDict
          [(lit "model",
            PStr (if is_set (OPENAI_KEY cfg)
                  then lit "gpt-4o-mini" else lit "gpt-3.5-turbo"));
           (lit "messages",
            PList [PDict [(lit "role", PStr (lit "system"));
                          (lit "content",
                           PStr (lit "You are an expert B2B SaaS writer."))];
                   PDict [(lit "role", PStr (lit "user"));
                          (lit "content", PStr prompt)]]);
           (lit "temperature", PFloat (lit "0.2"));
           (lit "max_tokens", PInt 1600)]);
     timeout := Some 120 |}.

(** The request [call_hf] sends when the token is set. *)
Definition hf_request (prompt : pystr) : request :=
  {| method := POST;
     url := lit "https://api-inference.huggingface.co/models/gpt2";
     headers := [(lit "Authorization", lit "Bearer " ++ fmt (HF_TOKEN cfg))];
     body := JsonBody
       (PDict [(lit "inputs", PStr prompt);
               (lit "parameters", PDict [(lit "max_new_tokens", PInt 800)])]);
     timeout := None |}.

(** What [call_openai] makes of the answer. *)
Definition openai_value (rs : response) : result pyval :=
  match rs with
  | Failed x => Raise x
  | Http st c j =>
      let r := {| status_code := st; content := c; json_body := j |} in
      rbind (raise_for_status r) (fun _ => rbind (json r) openai_path)
  end.

Lemma call_openai_eq (prompt : pystr) (tr : trace) :
  let rq := openai_request prompt in
  let rs := net tr OpenAI rq in
  call_openai cfg net prompt tr = (openai_value rs, tr ++ [Call OpenAI rq rs]).
Proof.
  cbv zeta. unfold call_openai, bind, lift, send, openai_value, openai_path.
  fold (openai_request prompt).
  destruct (net tr OpenAI (openai_request prompt)) as [x | st c j]; [reflexivity|].
  destruct (raise_for_status _) as [[] | x]; cbn [rbind]; [|reflexivity].
  destruct (json _) as [v | x]; reflexivity.
Qed.

Lemma openai_path_ok (j v : pyval) :
  openai_path j = Ok v <->
  exists d rest d0 dm,
    j = PDict d
    /\ lookup (lit "choices") d = Some (PList (PDict d0 :: rest))
    /\ lookup (lit "message") d0 = Some (PDict dm)
    /\ lookup (lit "content") dm = Some v.
Proof.
  unfold openai_path. split.
  - destruct j as [| | | | | |d]; cbn [getitem rbind]; try discriminate.
    destruct (lookup (lit "choices") d) as [c|] eqn:E1; cbn [rbind]; [|discriminate].
    destruct c as [| | | |s|l|d']; cbn [getitem0 rbind]; try discriminate.
    + destruct s; cbn [rbind getitem]; discriminate.
    + destruct l as [|c0 rest]; cbn [rbind]; [discriminate|].
      destruct c0 as [| | | | | |d0]; cbn [getitem rbind]; try discriminate.
      destruct (lookup (lit "message") d0) as [m|] eqn:E2; cbn [rbind];
        [|discriminate].
      destruct m as [| | | | | |dm]; cbn [getitem]; try discriminate.
      destruct (lookup (lit "content") dm) as [x|] eqn:E3; [|discriminate].
      intros [= <-]. now exists d, rest, d0, dm.
  - intros (d & rest & d0 & dm & -> & E1 & E2 & E3).
    cbn [getitem rbind]. rewrite E1. cbn [rbind getitem0 getitem].
    rewrite E2. cbn [rbind getitem]. now rewrite E3.
Qed.

(** [call_openai] always sends exactly one request, and it returns a value
    exactly when the answer has a status below 400 or above 599 and is a
    JSON object whose "choices" is a list that starts with an object whose
    "message" is an object with a "content": that content is the value. *)
Theorem call_openai_returns_iff (prompt : pystr) (tr : trace) :
  let rq := openai_request prompt in
  snd (call_openai cfg net prompt tr) = tr ++ [Call OpenAI rq (net tr OpenAI rq)]
  /\ forall v,
       fst (call_openai cfg net prompt tr) = Ok v <->
       exists st c d rest d0 dm,
         net tr OpenAI rq = Http st c (Some (PDict d))
         /\ status_ok st = true
         /\ lookup (lit "choices") d = Some (PList (PDict d0 :: rest))
         /\ lookup (lit "message") d0 = Some (PDict dm)
         /\ lookup (lit "content") dm = Some v.
Proof.
  cbv zeta. rewrite call_openai_eq. cbn [fst snd]. split; [reflexivity|].
  intros v. unfold openai_value, raise_for_status, json, status_ok.
  destruct (net tr OpenAI (openai_request prompt)) as [x | st c j].
  - split; [discriminate|]. intros (? & ? & ? & ? & ? & ? & ? & _). discriminate.
  - cbn [status_code json_body].
    destruct ((400 <=? st) && (st <? 600)) eqn:Est; cbn [rbind negb].
    + split; [discriminate|].
      intros (? & ? & ? & ? & ? & ? & [= -> _ _] & ? & _).
      rewrite Est in *. discriminate.
    + destruct j as [j|]; cbn [rbind].
      * rewrite openai_path_ok. split.
        -- intros (d & rest & d0 & dm & -> & E1 & E2 & E3).
           exists st, c, d, rest, d0, dm. rewrite Est. auto.
        -- intros (? & ? & d & rest & d0 & dm & [= _ _ ->] & _ & E1 & E2 & E3).
           now exists d, rest, d0, dm.
      * split; [discriminate|].
        intros (? & ? & ? & ? & ? & ? & ? & _). discriminate.
Qed.

(** What [call_hf] makes of the parsed answer. *)
Definition hf_pick (out : pyval) : result pyval :=
  rbind (match out with
         | PList _ => rbind (getitem0 out) (py_in (lit "generated_text"))
         | _ => Ok false
         end)
        (fun first_has =>
           if first_has
           then rbind (getitem0 out) (fun o => getitem o (lit "generated_text"))
           else rbind (py_get out (lit "generated_text"))
                      (fun g => Ok (if truthy g then g
                                    else PStr (py_str repr_container out)))).

Definition hf_value (rs : response) : result pyval :=
  match rs with
  | Failed x => Raise x
  | Http st c j =>
      let r := {| status_code := st; content := c; json_body := j |} in
      rbind (raise_for_status r) (fun _ => rbind (json r) hf_pick)
  end.

Lemma call_hf_eq (prompt : pystr) (tr : trace) :
  is_set (HF_TOKEN cfg) = true ->
  let rq := hf_request prompt in
  let rs := net tr HF rq in
  call_hf repr_container cfg net prompt tr = (hf_value rs, tr ++ [Call HF rq rs]).
Proof.
  intros Hset. cbv zeta.
  unfold call_hf, bind, lift, send, ret, hf_value, hf_pick.
  rewrite Hset. cbn [negb]. fold (hf_request prompt).
  destruct (net tr HF (hf_request prompt)) as [x | st c j]; [reflexivity|].
  destruct (raise_for_status _) as [[] | x]; cbn [rbind]; [|reflexivity].
  destruct (json _) as [out | x]; cbn [rbind]; [|reflexivity].
  destruct (match out with PList _ => _ | _ => _ end) as [[|] | x];
    cbn [rbind]; try reflexivity.
  destruct (py_get out _); reflexivity.
Qed.

(** A list answer.  When the inference endpoint answers with a JSON list,
    [call_hf] returns a value exactly when the first element is an object
    with a "generated_text": that entry is the value.  An empty list, a
    first element of another kind, or one without the key makes it raise. *)
Theorem call_hf_list_answer
        (prompt : pystr) (tr : trace) (st : N) (c : pybytes) (l : list pyval) :
  is_set (HF_TOKEN cfg) = true ->
  net tr HF (hf_request prompt) = Http st c (Some (PList l)) ->
  status_ok st = true ->
  forall v,
    fst (call_hf repr_container cfg net prompt tr) = Ok v <->
    exists d rest, l = PDict d :: rest /\ lookup (lit "generated_text") d = Some v.
Proof.
  intros Hset Hnet Hst v.
  rewrite (call_hf_eq prompt tr Hset). cbv zeta. rewrite Hnet. cbn [fst].
  unfold hf_value, raise_for_status, json. cbn [status_code json_body].
  unfold status_ok in Hst. apply negb_true_iff in Hst. rewrite Hst. cbn [rbind].
  unfold hf_pick. split.
  - destruct l as [|o rest]; cbn [getitem0 rbind]; [discriminate|].
    destruct o as [| | | |s|l'|d]; cbn [py_in rbind]; try discriminate.
    + destruct (contains _ s); cbn [getitem py_get rbind]; discriminate.
    + destruct (existsb _ l'); cbn [getitem py_get rbind]; discriminate.
    + destruct (lookup (lit "generated_text") d) as [x|] eqn:E;
        cbn [getitem py_get rbind]; [|discriminate].
      rewrite E. intros [= <-]. now exists d, rest.
  - intros (d & rest & -> & E). cbn [getitem0 rbind py_in]. rewrite E.
    cbn [rbind getitem]. now rewrite E.
Qed.

(** An object answer.  When the inference endpoint answers with a JSON
    object, [call_hf] never raises: it returns the "generated_text" entry
    when there is one with a true value, and the text of the whole object
    otherwise. *)
Theorem call_hf_object_answer
        (prompt : pystr) (tr : trace) (st : N) (c : pybytes)
        (d : list (pystr * pyval)) :
  is_set (HF_TOKEN cfg) = true ->
  net tr HF (hf_request prompt) = Http st c (Some (PDict d)) ->
  status_ok st = true ->
  fst (call_hf repr_container cfg net prompt tr)
  = Ok (match lookup (lit "generated_text") d with
        | Some g => if truthy g then g
                    else PStr (py_str repr_container (PDict d))
        | None => PStr (py_str repr_container (PDict d))
        end).
Proof.
  intros Hset Hnet Hst.
  rewrite (call_hf_eq prompt tr Hset). cbv zeta. rewrite Hnet. cbn [fst].
  unfold hf_value, raise_for_status, json. cbn [status_code json_body].
  unfold status_ok in Hst. apply negb_true_iff in Hst. rewrite Hst. cbn [rbind].
  unfold hf_pick. cbn [rbind py_get].
  destruct (lookup (lit "generated_text") d); reflexivity.
Qed.

End ModelCalls.

(** ** More on whole runs *)


(** The call sites of the publishing part of a trace, in order. *)
Definition publishing_sites (tr : trace) : list site :=
  flat_map (fun e => match e with
                     | Call OpenAI _ _ | Call HF _ _ | Print _ => []
                     | Call s _ _ => [s]
                     end) tr.

Ltac x_in_calls H :=
  repeat rewrite calls_at_app in H;
  match goal with
  | Hg : generation_trace _ |- _ =>
      repeat (rewrite (generation_trace_no_call _ _ Hg) in H by discriminate)
  end;
  cbn [calls_at site_eqb app In IMAGE_FAILED] in H.

Ltac x_calls :=
  repeat rewrite calls_at_app;
  match goal with
  | Hg : generation_trace _ |- _ =>
      repeat (rewrite (generation_trace_no_call _ _ Hg) by discriminate)
  end;
  cbn [calls_at site_eqb app IMAGE_FAILED].

Ltac x_image_shapes :=
  match goal with
  | |- context [after_draft ?r ?c ?n ?p ?t] =>
      destruct (after_draft_shape r c n p t)
        as [rs_i x Hrs_i Himg
           | rs_i img x Hrs_i Himg Hauth'
           | rs_i rs_m img auth' x Hrs_i Himg Hauth' Hrs_m Hmid
           | rs_i rs_m img auth' media_id Hrs_i Himg Hauth' Hrs_m Hmid Hboth
           | rs_i rs_m rs_u img auth' media_id x Hrs_i Himg Hauth' Hrs_m Hmid Hboth Hrs_u Hupd
           | rs_i rs_m rs_u img auth' media_id Hrs_i Himg Hauth' Hrs_m Hmid Hboth Hrs_u Hupd]
  end.

Section MoreRuns.

Variable repr_container : pyval -> pystr.
Variable cfg : config.
Variable net : network.

Local Abbreviation outcome := (fst (main repr_container cfg net [])).
Local Abbreviation run := (snd (main repr_container cfg net [])).
Local Abbreviation local_text :=
  (PStr (fallback_generate cfg (generation_prompt cfg))).

Ltac x_main_shapes :=
  destruct (main_has_shape repr_container cfg net)
    as [pre v Hpre Hgen Hv | pre x Hpre Hauth
        | pre txt auth title html excerpt x Hpre Hgen Hfmt Hauth rq0 rs0 Hid
        | pre txt auth title html excerpt post_id Hpre Hgen Hfmt Hauth rq0 rs0 Hid].





Lemma publishing_sites_app (a b : trace) :
  publishing_sites (a ++ b) = publishing_sites a ++ publishing_sites b.
Proof. apply flat_map_app. Qed.

Lemma generation_trace_no_publishing (pre : trace) :
  generation_trace pre -> publishing_sites pre = [].
Proof.
  intros (evs & -> & H). cbn [GENERATING publishing_sites flat_map app].
  induction H as [|[args | s rq rs] evs He _ IH]; [reflexivity | exact IH |].
  cbn [flat_map]. destruct He as [<- | [<- | []]]; exact IH.
Qed.

Lemma image_of_ok (rs : response) (img : pybytes) :
  image_of rs = Ok img -> exists st j, rs = Http st img j /\ status_ok st = true.
Proof.
  destruct rs as [x | st c j]; cbn [image_of]; [discriminate|].
  unfold raise_for_status, status_ok; cbn [status_code].
  destruct ((400 <=? st) && (st <? 600)) eqn:E; cbn [rbind]; [discriminate|].
  intros [= <-]. exists st, j. now rewrite E.
Qed.




(** The publishing calls of a run are a beginning of the sequence post
    creation, image fetch, media upload, featured-media update: each is made
    at most once, and none before the one it follows. *)
Theorem publishing_calls_in_order :
  exists n, publishing_sites run = firstn n [WpPost; Unsplash; WpMedia; WpUpdate].
Proof.
  x_main_shapes.
  - exists 0%nat. now apply generation_trace_no_publishing.
  - exists 0%nat. rewrite publishing_sites_app, generation_trace_no_publishing by auto.
    reflexivity.
  - exists 1%nat. rewrite publishing_sites_app, generation_trace_no_publishing by auto.
    reflexivity.
  - x_image_shapes;
      rewrite !publishing_sites_app, generation_trace_no_publishing by auto;
      [exists 2%nat | exists 2%nat | exists 3%nat | exists 3%nat
       | exists 4%nat | exists 4%nat];
      reflexivity.
Qed.

(** Every request to the blog carries the same credentials header, first in
    its headers: Basic followed by the base64 text of user:password. *)
Theorem blog_calls_share_credentials (s : site) (rq : request) (rs : response) :
  In (rq, rs) (calls_at s run) ->
  s = WpPost \/ s = WpMedia \/ s = WpUpdate ->
  exists auth,
    basic_auth cfg = Ok auth
    /\ hd_error (headers rq) = Some (lit "Authorization", lit "Basic " ++ auth).
Proof.
  intros Hin Hs. revert Hin.
  x_main_shapes.
  - intros Hin. destruct Hs as [-> | [-> | ->]]; x_in_calls Hin; contradiction.
  - intros Hin. destruct Hs as [-> | [-> | ->]]; x_in_calls Hin; contradiction.
  - intros Hin. exists auth. split; [exact Hauth|].
    destruct Hs as [-> | [-> | ->]]; x_in_calls Hin; try contradiction.
    destruct Hin as [[= <- _] | []]. reflexivity.
  - x_image_shapes; intros Hin; exists auth; (split; [exact Hauth|]);
      try (rewrite Hauth in Hauth'; injection Hauth' as <-);
      destruct Hs as [-> | [-> | ->]]; x_in_calls Hin; try contradiction;
      destruct Hin as [[= <- _] | []]; reflexivity.
Qed.

(** The media upload sends the very bytes the image service returned, and
    only after an image answer with a success status. *)
Theorem uploaded_bytes_are_fetched_bytes (rq : request) (rs : response) :
  In (rq, rs) (calls_at WpMedia run) ->
  exists st c j,
    calls_at Unsplash run = [(image_request, Http st c j)]
    /\ status_ok st = true
    /\ body rq = DataBody c.
Proof.
  x_main_shapes.
  1-3: intros Hin; x_in_calls Hin; contradiction.
  x_image_shapes; intros Hin; x_in_calls Hin; try contradiction.
  all: destruct Hin as [[= <- _] | []].
  all: destruct (image_of_ok _ _ Himg) as (st & j & E & Hst).
  all: exists st, img, j; x_calls; rewrite <- E; repeat split; auto.
Qed.

(** The update request goes to the address of the post-creation request
    followed by a slash and the text of the identifier that call returned,
    and carries the identifier the media upload returned. *)
Theorem update_addresses_created_post (rq : request) (rs : response) :
  In (rq, rs) (calls_at WpUpdate run) ->
  exists rq1 st1 c1 o1 rq2 st2 c2 o2,
    calls_at WpPost run = [(rq1, Http st1 c1 (Some (PDict o1)))]
    /\ calls_at WpMedia run = [(rq2, Http st2 c2 (Some (PDict o2)))]
    /\ url rq = url rq1 ++ lit "/" ++ py_str repr_container (id_of o1)
    /\ method rq = POST
    /\ body rq = JsonBody (PDict [(lit "featured_media", id_of o2)]).
Proof.
  x_main_shapes.
  1-3: intros Hin; x_in_calls Hin; contradiction.
  x_image_shapes; intros Hin; x_in_calls Hin; try contradiction.
  all: destruct Hin as [[= <- _] | []].
  all: destruct (id_of_response_ok _ _ Hid) as (st1 & c1 & o1 & E1 & _ & ->).
  all: destruct (id_of_response_ok _ _ Hmid) as (st2 & c2 & o2 & E2 & _ & ->).
  all: exists rq0, st1, c1, o1, (media_request cfg auth' img), st2, c2, o2.
  all: x_calls; rewrite <- E1, <- E2; repeat split; auto.
  all: cbn [url update_request rq0 post_request]; rewrite <- app_assoc; reflexivity.
Qed.


End MoreRuns.


Section MoreRunsB.

Variable repr_container : pyval -> pystr.
Variable cfg : config.
Variable net : network.

Local Abbreviation outcome := (fst (main repr_container cfg net [])).
Local Abbreviation run := (snd (main repr_container cfg net [])).



(** The image fetch returns bytes exactly when the query can be quoted and
    the image service answers that request with a status below 400 or above
    599: the bytes are the content of the answer.  A query that cannot be
    encoded raises before any request is sent. *)
Theorem fetch_unsplash_image_returns_iff (query : pystr) (tr : trace) :
  (forall e, quote query = Raise e ->
             fetch_unsplash_image net query tr = (Raise e, tr))
  /\ forall bytes,
       fst (fetch_unsplash_image net query tr) = Ok bytes <->
       exists q st j,
         quote query = Ok q
         /\ net tr Unsplash
                {| method := GET;
                   url := lit "https://source.unsplash.com/1200x630/?" ++ q;
                   headers := []; body := NoBody; timeout := Some 30 |}
            = Http st bytes j
         /\ status_ok st = true.
Proof.
  unfold fetch_unsplash_image, bind, lift, send, ret. split.
  - intros e ->. reflexivity.
  - intros bytes. destruct (quote query) as [q | e].
    + destruct (net tr Unsplash _) as [e | st c j] eqn:En.
      * split; [discriminate|]. intros (? & ? & ? & [= <-] & E & _).
        rewrite En in E. discriminate.
      * unfold raise_for_status, status_ok. cbn [status_code content].
        destruct ((400 <=? st) && (st <? 600)) eqn:Est; cbn [fst negb].
        -- split; [discriminate|]. intros (? & ? & ? & [= <-] & E & Hst).
           rewrite En in E. injection E as <- <- <-. rewrite Est in Hst.
           discriminate.
        -- split.
           ++ intros [= <-]. exists q, st, j. rewrite En, Est. auto.
           ++ intros (? & ? & ? & [= <-] & E & _). rewrite En in E.
              now injection E as <- <- <-.
    + split; [discriminate|]. intros (? & ? & ? & ? & _). discriminate.
Qed.

End MoreRunsB.

(** ** Instances of the further properties *)

Definition hf_only_config : config :=
  {| WP_URL := WP_URL default_config;
     WP_USER := WP_USER default_config;
     WP_APP_PASS := WP_APP_PASS default_config;
     AFF_LINK := AFF_LINK default_config;
     OPENAI_KEY := None;
     HF_TOKEN := Some (lit "hf-test");
     PRIMARY_KEYWORD := PRIMARY_KEYWORD default_config |}.


(** The inference endpoint answers with a list of one generation. *)
Definition net_hf_list : network :=
  fun _ s _ =>
    match s with
    | HF => Http 200 []
              (Some (PList [PDict [(lit "generated_text",
                                    PStr (lit "A title" ++ [10] ++ lit "A body"))]]))
    | _ => Http 200 [] (Some (PDict []))
    end.

(** The inference endpoint answers with an object that has no generation. *)
Definition net_hf_object : network :=
  fun _ s _ =>
    match s with
    | HF => Http 200 [] (Some (PDict [(lit "error", PStr (lit "loading"))]))
    | _ => Http 200 [] (Some (PDict []))
    end.

Definition default_update_request : request :=
  update_request sample_repr default_config (lit "dXNlcjpwYXNz") (PInt 42) (PInt 7).

Lemma call_hf_list_answer_witness :
  is_set (HF_TOKEN hf_only_config) = true
  /\ status_ok 200 = true
  /\ fst (call_hf sample_repr hf_only_config net_hf_list
            (generation_prompt hf_only_config) [])
     = Ok (PStr (lit "A title" ++ [10] ++ lit "A body")).
Proof.
  split; [reflexivity|]. split; [reflexivity|].
  apply (call_hf_list_answer sample_repr hf_only_config net_hf_list
           (generation_prompt hf_only_config) [] 200 []
           [PDict [(lit "generated_text",
                    PStr (lit "A title" ++ [10] ++ lit "A body"))]]
           eq_refl eq_refl eq_refl).
  eexists _, _. split; reflexivity.
Defined.

Lemma call_hf_object_answer_witness :
  is_set (HF_TOKEN hf_only_config) = true
  /\ status_ok 200 = true
  /\ fst (call_hf sample_repr hf_only_config net_hf_object
            (generation_prompt hf_only_config) [])
     = Ok (PStr (lit "{...}")).
Proof.
  split; [reflexivity|]. split; [reflexivity|].
  exact (call_hf_object_answer sample_repr hf_only_config net_hf_object
           (generation_prompt hf_only_config) [] 200 []
           [(lit "error", PStr (lit "loading"))] eq_refl eq_refl eq_refl).
Defined.


Lemma blog_calls_share_credentials_witness :
  In (default_media_request, Http 201 [] (Some (PDict [(lit "id", PInt 7)])))
     (calls_at WpMedia (snd (main sample_repr default_config net_ok [])))
  /\ exists auth,
       basic_auth default_config = Ok auth
       /\ hd_error (headers default_media_request)
          = Some (lit "Authorization", lit "Basic " ++ auth).
Proof.
  assert (Hin : In (default_media_request,
                    Http 201 [] (Some (PDict [(lit "id", PInt 7)])))
                   (calls_at WpMedia (snd (main sample_repr default_config net_ok []))))
    by (vm_compute; left; reflexivity).
  split; [exact Hin|].
  exact (blog_calls_share_credentials sample_repr default_config net_ok
           WpMedia _ _ Hin (or_intror (or_introl eq_refl))).
Defined.

Lemma uploaded_bytes_are_fetched_bytes_witness :
  In (default_media_request, Http 201 [] (Some (PDict [(lit "id", PInt 7)])))
     (calls_at WpMedia (snd (main sample_repr default_config net_ok [])))
  /\ exists st c j,
       calls_at Unsplash (snd (main sample_repr default_config net_ok []))
       = [(image_request, Http st c j)]
       /\ status_ok st = true
       /\ body default_media_request = DataBody c.
Proof.
  assert (Hin : In (default_media_request,
                    Http 201 [] (Some (PDict [(lit "id", PInt 7)])))
                   (calls_at WpMedia (snd (main sample_repr default_config net_ok []))))
    by (vm_compute; left; reflexivity).
  split; [exact Hin|].
  exact (uploaded_bytes_are_fetched_bytes sample_repr default_config net_ok _ _ Hin).
Defined.

Lemma update_addresses_created_post_witness :
  In (default_update_request, Http 200 [] (Some (PDict [])))
     (calls_at WpUpdate (snd (main sample_repr default_config net_ok [])))
  /\ url default_update_request
     = lit "https://blog.example/wp-json/wp/v2/posts" ++ lit "/" ++ lit "42".
Proof.
  assert (Hin : In (default_update_request, Http 200 [] (Some (PDict [])))
                   (calls_at WpUpdate (snd (main sample_repr default_config net_ok []))))
    by (vm_compute; left; reflexivity).
  split; [exact Hin|].
  destruct (update_addresses_created_post sample_repr default_config net_ok _ _ Hin)
    as (rq1 & st1 & c1 & o1 & rq2 & st2 & c2 & o2 & Hp & _ & Hurl & _).
  rewrite Hurl.
  assert (E : calls_at WpPost (snd (main sample_repr default_config net_ok []))
              = [(default_post_request,
                  Http 201 [] (Some (PDict [(lit "id", PInt 42)])))])
    by (vm_compute; reflexivity).
  rewrite E in Hp. injection Hp as <- _ _ <-.
  vm_compute. reflexivity.
Defined.


